(** * Alert store of [Interface/backend_.py]

    A shallow embedding of the alert persistence layer: the process-wide
    [alerts_database], the JSON file it is synchronised with, and the
    operations [load_alerts_from_file], [save_alerts_to_file],
    [add_alert_by_time], [get_alerts_by_time], [get_unread_alerts], plus the
    two trend accessors [get_trend_data] and [get_detailed_trend_data].

    Python values are the values [json.load] produces.  A [dict] is an
    association list in insertion order, because the order of
    [dict.values()] is observable.  The code runs in a small state and
    exception monad over the global document, the file system and the
    standard output. *)

Set Warnings "-register-all".
From Stdlib Require Import ZArith Floats.
From stdpp Require Import gmap strings list.

Local Open Scope string_scope.
Local Open Scope list_scope.

(** ** Values *)

(** What [json.load] returns: [None], [bool], [int], [float], [str], [list]
    and [dict] with [str] keys. *)
Inductive json : Type :=
  | JNull
  | JBool (b : bool)
  | JInt (n : Z)
  | JFloat (f : float)
  | JStr (s : string)
  | JList (l : list json)
  | JObj (d : list (string * json)).

(** A Python [dict] with string keys, in insertion order. *)
Abbreviation dict := (list (string * json)).

(** The exceptions the module can meet. [FileNotFoundError] is a subclass of
    [OSError] (which [IOError] aliases); [OSError] here stands for every
    other subclass (permission denied, is a directory, disk full). *)
Inductive exn : Type :=
  | FileNotFoundError
  | OSError
  | JSONDecodeError
  | TypeError
  | KeyError
  | AttributeError.

Inductive outcome (A : Type) : Type :=
  | Returns (a : A)
  | Raises (e : exn).
Arguments Returns {A} a.
Arguments Raises {A} e.

(** ** Dictionaries *)

Module Dict.

(** [d.get(k)]: the value at the first (and, in a real dict, only) entry
    with key [k]. *)
Fixpoint lookup (k : string) (d : dict) : option json :=
  match d with
  | [] => None
  | (k', v) :: d' => if String.eqb k k' then Some v else lookup k d'
  end.

(** [k in d] *)
Definition mem (k : string) (d : dict) : bool :=
  match lookup k d with Some _ => true | None => false end.

(** [d[k] = v]: an existing key keeps its position, a new key goes last. *)
Fixpoint set (k : string) (v : json) (d : dict) : dict :=
  match d with
  | [] => [(k, v)]
  | (k', v') :: d' =>
      if String.eqb k k' then (k', v) :: d' else (k', v') :: set k v d'
  end.

Definition keys (d : dict) : list string := map fst d.
Definition values (d : dict) : list json := map snd d.

(** [d.update(e)], also the loop [for k, v in e.items(): d[k] = v]. *)
Definition update (d e : dict) : dict :=
  fold_left (fun acc kv => set kv.1 kv.2 acc) e d.

End Dict.

(** ** Operations of the Python object model used by the module *)

Definition str_eq (key : string) (v : json) : bool :=
  match v with
  | JStr s => String.eqb s key
  | _ => false
  end.

(** [key in c] for a string [key]: key membership for a dict, element
    membership for a list, substring test for a string, and a [TypeError]
    for the values that are not containers. *)
Definition py_contains (key : string) (c : json) : outcome bool :=
  match c with
  | JObj d => Returns (Dict.mem key d)
  | JList l => Returns (existsb (str_eq key) l)
  | JStr s => Returns (match String.index 0 key s with Some _ => true | None => false end)
  | JNull | JBool _ | JInt _ | JFloat _ => Raises TypeError
  end.

(** [c[key]] for a string [key]. *)
Definition py_getitem (c : json) (key : string) : outcome json :=
  match c with
  | JObj d => match Dict.lookup key d with
              | Some v => Returns v
              | None => Raises KeyError
              end
  | _ => Raises TypeError
  end.

(** [c[key] = v] for a string [key]; the updated container is returned. *)
Definition py_setitem (c : json) (key : string) (v : json) : outcome json :=
  match c with
  | JObj d => Returns (JObj (Dict.set key v d))
  | _ => Raises TypeError
  end.

(** [c.get(key, default)] *)
Definition py_get (c : json) (key : string) (default : json) : outcome json :=
  match c with
  | JObj d => Returns (match Dict.lookup key d with Some v => v | None => default end)
  | _ => Raises AttributeError
  end.

(** [c.items()] and [c.values()] *)
Definition py_items (c : json) : outcome dict :=
  match c with
  | JObj d => Returns d
  | _ => Raises AttributeError
  end.

Definition py_values (c : json) : outcome (list json) :=
  match c with
  | JObj d => Returns (Dict.values d)
  | _ => Raises AttributeError
  end.

(** [c.update(e)] with [e] a dict. *)
Definition py_update (c e : json) : outcome json :=
  match c, e with
  | JObj d, JObj d' => Returns (JObj (Dict.update d d'))
  | JObj _, _ => Raises TypeError
  | _, _ => Raises AttributeError
  end.

(** Truth value of an object, as [not] and [if] see it. *)
Definition py_truthy (v : json) : bool :=
  match v with
  | JNull => false
  | JBool b => b
  | JInt n => negb (Z.eqb n 0)
  | JFloat f => negb (PrimFloat.eqb f 0%float)
  | JStr s => negb (String.eqb s "")
  | JList l => match l with [] => false | _ => true end
  | JObj d => match d with [] => false | _ => true end
  end.

(** ** The world: global document, files, standard output *)

(** What a path holds when it exists: something [open] refuses with an
    [OSError] other than "not found", text that is not JSON, or JSON text,
    identified with the value [json.load] reads from it ([json.dump]
    followed by [json.load] gives the value back). A path bound to nothing
    does not exist. *)
Inductive file : Type :=
  | Unreadable
  | Garbage
  | Text (v : json).

(** What happens when a path is opened for writing and a document is dumped
    to it. *)
Inductive write_mode : Type :=
  | Writable
  | OpenRaises
  | DumpRaises.

(** A line of standard output: [print(f"Error saving alerts: {e}")]. *)
Inductive line : Type :=
  | ErrorSavingAlerts (e : exn).

Record world : Type := World {
  alerts_database : json;
  fs : gmap string file;
  wmode : string -> write_mode;
  stdout : list line
}.

Definition py (A : Type) : Type := world -> outcome A * world.

Definition ret {A} (a : A) : py A := fun w => (Returns a, w).

Definition raise {A} (e : exn) : py A := fun w => (Raises e, w).

Definition bind {A B} (m : py A) (k : A -> py B) : py B :=
  fun w =>
    match m w with
    | (Returns a, w') => k a w'
    | (Raises e, w') => (Raises e, w')
    end.

Declare Scope py_scope.
Delimit Scope py_scope with py.
Notation "x <- m ;; k" := (bind m (fun x => k))
  (at level 100, m at next level, right associativity) : py_scope.
Notation "m ;; k" := (bind m (fun _ => k))
  (at level 100, right associativity) : py_scope.
Local Open Scope py_scope.

Definition lift {A} (o : outcome A) : py A := fun w => (o, w).

(** [try: body except (classes): handler]. The state the handler starts
    from is the one the body left. *)
Definition try_except {A} (body : py A) (caught : exn -> bool)
    (handler : exn -> py A) : py A :=
  fun w =>
    match body w with
    | (Returns a, w') => (Returns a, w')
    | (Raises e, w') => if caught e then handler e w' else (Raises e, w')
    end.

(** Reading and rebinding the global [alerts_database]. *)
Definition get_db : py json := fun w => (Returns (alerts_database w), w).

Definition with_db (v : json) (w : world) : world :=
  {| alerts_database := v; fs := fs w; wmode := wmode w; stdout := stdout w |}.

Definition with_file (filename : string) (f : file) (w : world) : world :=
  {| alerts_database := alerts_database w; fs := <[filename := f]> (fs w);
     wmode := wmode w; stdout := stdout w |}.

Definition with_line (l : line) (w : world) : world :=
  {| alerts_database := alerts_database w; fs := fs w; wmode := wmode w;
     stdout := stdout w ++ [l] |}.

Definition set_db (v : json) : py unit := fun w => (Returns tt, with_db v w).

Definition print (l : line) : py unit := fun w => (Returns tt, with_line l w).

(** [with open(filename, "r") as file: json.load(file)]. The contents a
    path can have are the ones of [file]: a file whose bytes do not decode
    as text, on which [json.load] raises an error that is not a
    [JSONDecodeError], is not one of them. *)
Definition json_load (filename : string) : py json :=
  fun w =>
    match fs w !! filename with
    | None => (Raises FileNotFoundError, w)
    | Some Unreadable => (Raises OSError, w)
    | Some Garbage => (Raises JSONDecodeError, w)
    | Some (Text v) => (Returns v, w)
    end.

(** [with open(filename, "w") as file: json.dump(v, file, indent=4)].
    Opening for writing truncates the file, so a failure after the open
    leaves text that is not JSON. The failures are the I/O failures of the
    path, [OpenRaises] and [DumpRaises]; [Writable] is a write that
    succeeds. A dump that raises on the value itself (a [ValueError] or a
    [TypeError] of the encoder, after the open) is not modelled. *)
Definition json_dump (v : json) (filename : string) : py unit :=
  fun w =>
    match wmode w filename with
    | Writable => (Returns tt, with_file filename (Text v) w)
    | OpenRaises => (Raises OSError, w)
    | DumpRaises => (Raises OSError, with_file filename Garbage w)
    end.

(** ** The module *)

(** The literal [{"active_alerts": [], "read_alerts": [], "alerts_by_time": {}}]. *)
Definition empty_fields : dict :=
  [("active_alerts", JList []); ("read_alerts", JList []); ("alerts_by_time", JObj [])].

Definition empty_document : json := JObj empty_fields.

Definition not_found_or_decode (e : exn) : bool :=
  match e with
  | FileNotFoundError | JSONDecodeError => true
  | _ => false
  end.

(** [except IOError] *)
Definition is_IOError (e : exn) : bool :=
  match e with
  | FileNotFoundError | OSError => true
  | _ => false
  end.

(** [if key not in alerts_database: alerts_database[key] = default] *)
Definition ensure_key (key : string) (default : json) : py unit :=
  db <- get_db ;;
  present <- lift (py_contains key db) ;;
  if present then ret tt
  else (db' <- lift (py_setitem db key default) ;; set_db db').

Definition load_alerts_from_file (filename : string) : py unit :=
  try_except
    (data <- json_load filename ;;
     set_db data ;;
     ensure_key "alerts_by_time" (JObj []) ;;
     ensure_key "active_alerts" (JList []) ;;
     ensure_key "read_alerts" (JList []))
    not_found_or_decode
    (fun _ => set_db empty_document).

(** The body of [for hour, alert_info in alerts_database["alerts_by_time"].items()]:
    [existing_data["alerts_by_time"][hour] = alert_info], the inner dict
    being updated in place inside [existing_data]. *)
Fixpoint merge_alerts (items : dict) (existing_data : json) : py json :=
  match items with
  | [] => ret existing_data
  | (hour, alert_info) :: rest =>
      slot <- lift (py_getitem existing_data "alerts_by_time") ;;
      slot' <- lift (py_setitem slot hour alert_info) ;;
      existing_data' <- lift (py_setitem existing_data "alerts_by_time" slot') ;;
      merge_alerts rest existing_data'
  end.

Definition save_alerts_to_file (filename : string) : py unit :=
  try_except
    (existing_data <- try_except (json_load filename) not_found_or_decode
                        (fun _ => ret empty_document) ;;
     db <- get_db ;;
     active <- lift (py_get db "active_alerts" (JList [])) ;;
     existing_data <- lift (py_setitem existing_data "active_alerts" active) ;;
     read <- lift (py_get db "read_alerts" (JList [])) ;;
     existing_data <- lift (py_setitem existing_data "read_alerts" read) ;;
     present <- lift (py_contains "alerts_by_time" existing_data) ;;
     existing_data <- (if present then ret existing_data
                       else lift (py_setitem existing_data "alerts_by_time" (JObj []))) ;;
     by_time <- lift (py_getitem db "alerts_by_time") ;;
     items <- lift (py_items by_time) ;;
     existing_data <- merge_alerts items existing_data ;;
     json_dump existing_data filename ;;
     db <- get_db ;;
     db' <- lift (py_update db existing_data) ;;
     set_db db')
    is_IOError
    (fun e => print (ErrorSavingAlerts e)).

(** The dict literal of [add_alert_by_time]. *)
Definition alert_record (parameter value message : json) : json :=
  JObj [("Parameter", parameter); ("Value", value); ("Message", message);
        ("read", JBool false)].

Definition add_alert_by_time (hour : string) (parameter value message : json)
    (filename : string) : py unit :=
  load_alerts_from_file filename ;;
  db <- get_db ;;
  by_time <- lift (py_getitem db "alerts_by_time") ;;
  by_time' <- lift (py_setitem by_time hour (alert_record parameter value message)) ;;
  db' <- lift (py_setitem db "alerts_by_time" by_time') ;;
  set_db db' ;;
  save_alerts_to_file filename.

Definition get_alerts_by_time (filename : string) : py json :=
  load_alerts_from_file filename ;;
  db <- get_db ;;
  lift (py_getitem db "alerts_by_time").

(** [[alert for alert in alerts if not alert.get("read", False)]] *)
Fixpoint unread_of (alerts : list json) : outcome (list json) :=
  match alerts with
  | [] => Returns []
  | alert :: rest =>
      match py_get alert "read" (JBool false) with
      | Raises e => Raises e
      | Returns r =>
          match unread_of rest with
          | Raises e => Raises e
          | Returns tl => Returns (if py_truthy r then tl else alert :: tl)
          end
      end
  end.

Definition get_unread_alerts (filename : string) : py (list json) :=
  load_alerts_from_file filename ;;
  db <- get_db ;;
  by_time <- lift (py_getitem db "alerts_by_time") ;;
  alerts <- lift (py_values by_time) ;;
  lift (unread_of alerts).

(** The statement at the bottom of the alert part of the module:
    [load_alerts_from_file()] with the default file name. *)
Definition module_init : py unit := load_alerts_from_file "alerts.json".

(** ** Trend accessors *)

(** The module [fake_database] is imported, not defined, by the file: what
    its two functions return is a parameter of the accessors. *)
Record fake_database : Type := FakeDatabase {
  tendance_moyenne : list json;
  get_detailed_data : json
}.

(** [next((item for item in data_list if item["Date"] == date), {})] *)
Fixpoint first_with_date (data_list : list json) (date : string) : outcome json :=
  match data_list with
  | [] => Returns (JObj [])
  | item :: rest =>
      match py_getitem item "Date" with
      | Raises e => Raises e
      | Returns d => if str_eq date d then Returns item else first_with_date rest date
      end
  end.

Definition get_trend_data (db : fake_database) (date : string) : outcome json :=
  first_with_date (tendance_moyenne db) date.

Definition get_detailed_trend_data (db : fake_database) (date : string) : outcome json :=
  py_get (get_detailed_data db) date (JObj []).

(** ** Vocabulary of the specification *)

(** The document [save_alerts_to_file] starts its merge from: the empty
    document for a missing or undecodable file, the parsed object
    otherwise. Nothing for a path that cannot be opened or for JSON text
    that is not an object. *)
Definition existing_document (f : option file) : option dict :=
  match f with
  | None | Some Garbage => Some empty_fields
  | Some (Text (JObj d)) => Some d
  | Some Unreadable | Some (Text _) => None
  end.

(** The [alerts_by_time] map of a document, an absent field read as the
    empty map (both [load] and [save] fill it in that way). Nothing when the
    field holds something that is not an object. *)
Definition by_time (d : dict) : option dict :=
  match Dict.lookup "alerts_by_time" d with
  | None => Some []
  | Some (JObj a) => Some a
  | Some _ => None
  end.

(** All three top-level fields are there. *)
Definition complete (v : json) : bool :=
  match v with
  | JObj d =>
      Dict.mem "active_alerts" d && Dict.mem "read_alerts" d && Dict.mem "alerts_by_time" d
  | _ => false
  end.

(** The empty default of each of the three fields. *)
Definition default_field (key : string) : option json :=
  if String.eqb key "alerts_by_time" then Some (JObj [])
  else if String.eqb key "active_alerts" then Some (JList [])
  else if String.eqb key "read_alerts" then Some (JList [])
  else None.

Definition core_field (key : string) : bool :=
  match default_field key with Some _ => true | None => false end.

(** The entries of a map stored under a given key. *)
Definition entries_at (hour : string) (d : dict) : dict :=
  List.filter (fun kv => String.eqb kv.1 hour) d.

(** A record with the four fields [Parameter], [Value], [Message], [read]. *)
Definition four_fields (r : json) : bool :=
  match r with
  | JObj d =>
      Dict.mem "Parameter" d && Dict.mem "Value" d && Dict.mem "Message" d && Dict.mem "read" d
  | _ => false
  end.

(** An [alerts_by_time] map as the data model has it: unique hours, and
    records with the four fields. *)
Definition all_four_fields (slot : option json) : Prop :=
  match slot with
  | Some (JObj a) =>
      NoDup (Dict.keys a) /\ Forall (fun r => four_fields r = true) (Dict.values a)
  | _ => False
  end.

(** Every record of the in-memory [alerts_by_time] has the four fields. *)
Definition memory_shaped (w : world) : Prop :=
  match alerts_database w with
  | JObj mem => all_four_fields (Dict.lookup "alerts_by_time" mem)
  | _ => False
  end.

(** The same for whatever the path holds, when it holds a document. *)
Definition file_shaped (f : option file) : Prop :=
  match f with
  | None | Some Garbage | Some Unreadable => True
  | Some (Text (JObj d)) =>
      NoDup (Dict.keys d) /\
      (Dict.lookup "alerts_by_time" d = None \/
       all_four_fields (Dict.lookup "alerts_by_time" d))
  | Some (Text _) => False
  end.

Definition store_invariant (filename : string) (w : world) : Prop :=
  memory_shaped w /\ file_shaped (fs w !! filename).

(** The operations of the store, run for their effect on the world. *)
Inductive operation : Type :=
  | OpLoad
  | OpSave
  | OpAdd (hour : string) (parameter value message : json)
  | OpGetAlertsByTime
  | OpGetUnreadAlerts.

Definition run (op : operation) (filename : string) : py unit :=
  match op with
  | OpLoad => load_alerts_from_file filename
  | OpSave => save_alerts_to_file filename
  | OpAdd hour parameter value message =>
      add_alert_by_time hour parameter value message filename
  | OpGetAlertsByTime => (get_alerts_by_time filename ;; ret tt)
  | OpGetUnreadAlerts => (get_unread_alerts filename ;; ret tt)
  end.

(** A record whose [read] field is absent or [false]. *)
Definition unread (r : json) : bool :=
  match r with
  | JObj d =>
      match Dict.lookup "read" d with
      | None | Some (JBool false) => true
      | Some _ => false
      end
  | _ => false
  end.

(** A record as the data model has it: an object whose [read] field, when
    there, is a boolean. *)
Definition read_is_boolean (r : json) : bool :=
  match r with
  | JObj d =>
      match Dict.lookup "read" d with
      | None | Some (JBool _) => true
      | Some _ => false
      end
  | _ => false
  end.

(** Two documents with the same fields, as [==] on dicts compares them:
    the order of the keys does not count. *)
Definition same_fields (a b : json) : Prop :=
  match a, b with
  | JObj d, JObj e => forall k, Dict.lookup k d = Dict.lookup k e
  | _, _ => a = b
  end.

(** An entry of the averaged trend: an object with a [Date] field. *)
Definition dated (item : json) : bool :=
  match item with
  | JObj d => Dict.mem "Date" d
  | _ => false
  end.

Definition has_date (date : string) (item : json) : bool :=
  match item with
  | JObj d => match Dict.lookup "Date" d with Some v => str_eq date v | None => false end
  | _ => false
  end.

(** ** Closed forms of the two merges

    What [load_alerts_from_file] and [save_alerts_to_file] compute on a
    document, written without the monad. The lemmas of the section
    [Execution] prove that the code computes exactly these. *)

(** [if k not in d: d[k] = v] *)
Definition setdefault (k : string) (v : json) (d : dict) : dict :=
  if Dict.mem k d then d else Dict.set k v d.

Definition filled (d : dict) : dict :=
  setdefault "read_alerts" (JList [])
    (setdefault "active_alerts" (JList [])
       (setdefault "alerts_by_time" (JObj []) d)).

Definition field_or (key : string) (default : json) (d : dict) : json :=
  match Dict.lookup key d with Some v => v | None => default end.

(** The document written by a save: [ed] is the document found at the
    path and [theirs] its [alerts_by_time], [mem] the in-memory document and
    [mine] its [alerts_by_time]. *)
Definition merged_document (mem mine ed theirs : dict) : dict :=
  Dict.set "alerts_by_time" (JObj (Dict.update theirs mine))
    (Dict.set "read_alerts" (field_or "read_alerts" (JList []) mem)
       (Dict.set "active_alerts" (field_or "active_alerts" (JList []) mem) ed)).

(** The in-memory document and the written document of a successful
    [add_alert_by_time], from the document [ed] found at the path and its
    [alerts_by_time] map [theirs]. *)
Definition added_memory (hour : string) (record : json) (ed theirs : dict) : dict :=
  Dict.set "alerts_by_time" (JObj (Dict.set hour record theirs)) (filled ed).

Definition added_document (hour : string) (record : json) (ed theirs : dict) : dict :=
  merged_document (added_memory hour record ed theirs) (Dict.set hour record theirs)
    ed theirs.

(** ** Sample worlds *)

(** A world where every path can be written and nothing was printed. *)
Definition quiet (db : json) (files : gmap string file) : world :=
  World db files (fun _ => Writable) [].

(** Three alerts, a stored document with a field of its own, and an
    in-memory document with another. *)
Definition too_hot : json := alert_record (JStr "Temperature") (JInt 30) (JStr "Too hot").
Definition too_dry : json := alert_record (JStr "Humidity") (JInt 20) (JStr "Too dry").
Definition stale_air : json := alert_record (JStr "CO2") (JInt 900) (JStr "Open a window").
Definition two_alerts : dict := [("07:00", too_hot); ("08:00", too_dry)].
Definition stored_fields : dict :=
  [("schema", JInt 1); ("alerts_by_time", JObj two_alerts)].
Definition stored : gmap string file := {["alerts.json" := Text (JObj stored_fields)]}.

Definition memory_fields : dict :=
  [("active_alerts", JList [JStr "07:00"]); ("read_alerts", JList []);
   ("alerts_by_time", JObj [("09:00", stale_air); ("07:00", too_dry)]);
   ("theme", JStr "dark")].

(** A file whose one record has only a message. *)
Definition partial_record_file : gmap string file :=
  {["alerts.json" :=
      Text (JObj [("alerts_by_time", JObj [("07:00", JObj [("Message", JStr "Too hot")])])])]}.

(** A trend provider with two entries for the same date. *)
Definition trends : fake_database :=
  FakeDatabase
    [JObj [("Date", JStr "2024-01-01"); ("Temperature", JInt 21)];
     JObj [("Date", JStr "2024-01-02"); ("Temperature", JInt 23)];
     JObj [("Date", JStr "2024-01-02"); ("Temperature", JInt 25)]]
    (JObj [("2024-01-01", JObj [("08:00", JObj [("Temperature", JInt 20)])])]).

(** ** Vocabulary of the further properties *)

(** The world after a computation is related to the one before, whatever
    the one before is. *)
Definition preserves {A} (R : world -> world -> Prop) (m : py A) : Prop :=
  forall w, R w (m w).2.

(** No file was created or changed and nothing was printed. *)
Definition read_only (w w' : world) : Prop :=
  fs w' = fs w /\ stdout w' = stdout w /\ wmode w' = wmode w.

(** Whatever happened, it did not happen at path [p]. *)
Definition untouched_at (p : string) (w w' : world) : Prop :=
  fs w' !! p = fs w !! p.

Definition is_object (v : json) : bool :=
  match v with
  | JObj _ => true
  | _ => false
  end.

(** The three tests [key not in alerts_database] of a load all find their
    key. *)
Definition names_present (v : json) : bool :=
  match py_contains "alerts_by_time" v, py_contains "active_alerts" v,
        py_contains "read_alerts" v with
  | Returns true, Returns true, Returns true => true
  | _, _, _ => false
  end.

(** The test of the comprehension of [get_unread_alerts] on an object:
    [not alert.get("read", False)]. *)
Definition reported (alert : json) : bool :=
  match py_get alert "read" (JBool false) with
  | Returns r => negb (py_truthy r)
  | Raises _ => false
  end.

(** A world where no path can be opened for writing, and one where every
    dump fails after the open. *)
Definition read_only_disk (db : json) (files : gmap string file) : world :=
  World db files (fun _ => OpenRaises) [].

Definition full_disk (db : json) (files : gmap string file) : world :=
  World db files (fun _ => DumpRaises) [].

(** A trend provider whose last entry has no [Date]. *)
Definition ragged_trends : fake_database :=
  FakeDatabase
    [JObj [("Date", JStr "2024-01-01"); ("Temperature", JInt 21)];
     JObj [("Date", JStr "2024-01-02"); ("Temperature", JInt 23)];
     JObj [("Temperature", JInt 25)]]
    (JObj []).

(** * Properties *)

(** ** Dictionaries *)

Section DictFacts.

Implicit Types (d e : dict) (k : string) (v : json).

Lemma lookup_set k k' v d :
  Dict.lookup k' (Dict.set k v d) =
    if String.eqb k' k then Some v else Dict.lookup k' d.
Proof.
  induction d as [|[k0 v0] d IH]; simpl.
  - reflexivity.
  - destruct (String.eqb_spec k k0) as [->|Hk]; simpl.
    + destruct (String.eqb k' k0); reflexivity.
    + rewrite IH. destruct (String.eqb_spec k' k0) as [->|Hk'].
      * apply String.eqb_neq in Hk. rewrite String.eqb_sym, Hk. reflexivity.
      * reflexivity.
Qed.

Lemma lookup_set_eq k v d : Dict.lookup k (Dict.set k v d) = Some v.
Proof. rewrite lookup_set, String.eqb_refl. reflexivity. Qed.

Lemma lookup_set_ne k k' v d :
  k' <> k -> Dict.lookup k' (Dict.set k v d) = Dict.lookup k' d.
Proof.
  intros Hne. rewrite lookup_set.
  apply String.eqb_neq in Hne. rewrite Hne. reflexivity.
Qed.

Lemma set_same k v d : Dict.lookup k d = Some v -> Dict.set k v d = d.
Proof.
  induction d as [|[k0 v0] d IH]; simpl; [discriminate|].
  destruct (String.eqb k k0); intros H.
  - congruence.
  - rewrite IH by assumption. reflexivity.
Qed.

Lemma set_set k v v' d : Dict.set k v' (Dict.set k v d) = Dict.set k v' d.
Proof.
  induction d as [|[k0 v0] d IH]; simpl.
  - rewrite String.eqb_refl. reflexivity.
  - destruct (String.eqb k k0) eqn:E; simpl; rewrite E; [reflexivity|].
    rewrite IH. reflexivity.
Qed.

Lemma lookup_None_keys k d : Dict.lookup k d = None <-> k ∉ Dict.keys d.
Proof.
  induction d as [|[k0 v0] d IH]; simpl.
  - split; [intros _; apply not_elem_of_nil | reflexivity].
  - rewrite not_elem_of_cons.
    destruct (String.eqb_spec k k0) as [->|Hk].
    + split; [discriminate | intros [[] _]; reflexivity].
    + rewrite IH. tauto.
Qed.

Lemma lookup_Some_keys k v d : Dict.lookup k d = Some v -> k ∈ Dict.keys d.
Proof.
  intros H. destruct (decide (k ∈ Dict.keys d)) as [|Hn]; [assumption|].
  apply lookup_None_keys in Hn. congruence.
Qed.

Lemma set_fresh k v d : Dict.lookup k d = None -> Dict.set k v d = d ++ [(k, v)].
Proof.
  induction d as [|[k0 v0] d IH]; simpl; [reflexivity|].
  destruct (String.eqb k k0); [discriminate|].
  intros H. rewrite IH by assumption. reflexivity.
Qed.

Lemma keys_set_present k v d :
  Dict.mem k d = true -> Dict.keys (Dict.set k v d) = Dict.keys d.
Proof.
  unfold Dict.mem.
  induction d as [|[k0 v0] d IH]; simpl; [discriminate|].
  destruct (String.eqb k k0); simpl; [reflexivity|].
  intros H. rewrite IH by assumption. reflexivity.
Qed.

Lemma keys_set k v d :
  Dict.keys (Dict.set k v d) =
    if Dict.mem k d then Dict.keys d else Dict.keys d ++ [k].
Proof.
  destruct (Dict.mem k d) eqn:E.
  - apply keys_set_present, E.
  - unfold Dict.mem in E. destruct (Dict.lookup k d) eqn:L; [discriminate|].
    rewrite set_fresh by assumption. unfold Dict.keys. rewrite map_app. reflexivity.
Qed.

Lemma NoDup_keys_set k v d : NoDup (Dict.keys d) -> NoDup (Dict.keys (Dict.set k v d)).
Proof.
  intros Hd. rewrite keys_set. destruct (Dict.mem k d) eqn:E; [assumption|].
  unfold Dict.mem in E. destruct (Dict.lookup k d) eqn:L; [discriminate|].
  apply lookup_None_keys in L.
  apply NoDup_app. split; [assumption|]. split.
  - intros x Hx Hx'. apply list_elem_of_singleton in Hx'. subst. contradiction.
  - apply NoDup_singleton.
Qed.

Lemma update_snoc d e k v :
  Dict.update d (e ++ [(k, v)]) = Dict.set k v (Dict.update d e).
Proof. unfold Dict.update. rewrite fold_left_app. reflexivity. Qed.

Lemma update_cons d e k v :
  Dict.update d ((k, v) :: e) = Dict.update (Dict.set k v d) e.
Proof. reflexivity. Qed.

Lemma NoDup_keys_update d e : NoDup (Dict.keys d) -> NoDup (Dict.keys (Dict.update d e)).
Proof.
  revert d. induction e as [|[k v] e IH]; intros d Hd; [exact Hd|].
  rewrite update_cons. apply IH, NoDup_keys_set, Hd.
Qed.

(** After [d.update(e)] a key holds what [e] gave it, else what [d] had. *)
Lemma lookup_update k d e :
  NoDup (Dict.keys e) ->
  Dict.lookup k (Dict.update d e) =
    match Dict.lookup k e with Some v => Some v | None => Dict.lookup k d end.
Proof.
  revert d. induction e as [|[k0 v0] e IH]; intros d He; [reflexivity|].
  simpl in He. apply NoDup_cons in He as [Hk0 He].
  rewrite update_cons, IH by assumption. simpl.
  destruct (String.eqb_spec k k0) as [->|Hk].
  - apply lookup_None_keys in Hk0. rewrite Hk0. apply lookup_set_eq.
  - rewrite lookup_set_ne by assumption. reflexivity.
Qed.

Lemma update_agree d e :
  (forall k v, (k, v) ∈ e -> Dict.lookup k d = Some v) -> Dict.update d e = d.
Proof.
  induction e as [|[k v] e IH]; intros H; [reflexivity|].
  rewrite update_cons, set_same.
  - apply IH. intros k' v' Hin. apply H. right. exact Hin.
  - apply H. left.
Qed.

Lemma lookup_elem_of k v d : NoDup (Dict.keys d) -> (k, v) ∈ d -> Dict.lookup k d = Some v.
Proof.
  induction d as [|[k0 v0] d IH]; simpl; intros Hd Hin.
  - apply elem_of_nil in Hin. contradiction.
  - apply NoDup_cons in Hd as [Hk0 Hd].
    apply elem_of_cons in Hin as [Heq|Hin].
    + injection Heq as -> ->. rewrite String.eqb_refl. reflexivity.
    + destruct (String.eqb_spec k k0) as [->|Hk].
      * exfalso. apply Hk0. unfold Dict.keys.
        apply list_elem_of_fmap. exists (k0, v). split; [reflexivity | assumption].
      * apply IH; assumption.
Qed.

Lemma update_self d : NoDup (Dict.keys d) -> Dict.update d d = d.
Proof. intros Hd. apply update_agree. intros k v. apply lookup_elem_of, Hd. Qed.

Lemma values_set_Forall (P : json -> Prop) k v d :
  Forall P (Dict.values d) -> P v -> Forall P (Dict.values (Dict.set k v d)).
Proof.
  intros Hd Hv. induction d as [|[k0 v0] d IH]; simpl.
  - repeat constructor. exact Hv.
  - simpl in Hd. apply Forall_cons in Hd as [H0 Hd].
    destruct (String.eqb k k0); simpl; constructor; auto.
Qed.

Lemma values_update_Forall (P : json -> Prop) d e :
  Forall P (Dict.values d) -> Forall P (Dict.values e) ->
  Forall P (Dict.values (Dict.update d e)).
Proof.
  revert d. induction e as [|[k v] e IH]; intros d Hd He; [assumption|].
  simpl in He. apply Forall_cons in He as [Hv He].
  rewrite update_cons. apply IH; [|assumption].
  apply values_set_Forall; assumption.
Qed.

Lemma entries_at_unique k v d :
  NoDup (Dict.keys d) -> Dict.lookup k d = Some v -> entries_at k d = [(k, v)].
Proof.
  unfold entries_at.
  induction d as [|[k0 v0] d IH]; simpl; intros Hd Hl; [discriminate|].
  apply NoDup_cons in Hd as [Hk0 Hd].
  rewrite (String.eqb_sym k0 k).
  destruct (String.eqb_spec k k0) as [->|Hk].
  - injection Hl as ->. f_equal.
    clear IH Hd. induction d as [|[k1 v1] d IH]; simpl; [reflexivity|].
    simpl in Hk0. apply not_elem_of_cons in Hk0 as [Hne Hk0].
    apply String.eqb_neq in Hne. rewrite String.eqb_sym, Hne. apply IH, Hk0.
  - apply IH; assumption.
Qed.

End DictFacts.

(** ** Execution: the code computes the closed forms *)

Section Execution.
Implicit Types (w : world) (d e mem : dict) (filename : string).

Lemma ensure_key_obj key dflt d w :
  ensure_key key dflt (with_db (JObj d) w) =
    (Returns tt, with_db (JObj (setdefault key dflt d)) w).
Proof.
  unfold ensure_key, bind, get_db, lift, setdefault. simpl.
  destruct (Dict.mem key d); reflexivity.
Qed.

Lemma merge_alerts_obj items ed slot w :
  Dict.lookup "alerts_by_time" ed = Some (JObj slot) ->
  merge_alerts items (JObj ed) w =
    (Returns (JObj (Dict.set "alerts_by_time" (JObj (Dict.update slot items)) ed)), w).
Proof.
  revert ed slot. induction items as [|[hour info] items IH]; intros ed slot H.
  - simpl. rewrite set_same by exact H. reflexivity.
  - simpl. unfold bind, lift. simpl. rewrite H. simpl.
    rewrite (IH _ (Dict.set hour info slot)) by apply lookup_set_eq.
    rewrite set_set. reflexivity.
Qed.

Lemma load_missing filename w :
  fs w !! filename = None \/ fs w !! filename = Some Garbage ->
  load_alerts_from_file filename w = (Returns tt, with_db empty_document w).
Proof.
  intros [H|H]; unfold load_alerts_from_file, try_except, bind, json_load;
    rewrite H; reflexivity.
Qed.

Lemma load_unreadable filename w :
  fs w !! filename = Some Unreadable ->
  load_alerts_from_file filename w = (Raises OSError, w).
Proof.
  intros H. unfold load_alerts_from_file, try_except, bind, json_load.
  rewrite H. reflexivity.
Qed.

Lemma load_object filename d w :
  fs w !! filename = Some (Text (JObj d)) ->
  load_alerts_from_file filename w = (Returns tt, with_db (JObj (filled d)) w).
Proof.
  intros H. unfold load_alerts_from_file, try_except.
  unfold bind at 1. unfold json_load. rewrite H.
  unfold bind at 1. unfold set_db.
  unfold bind at 1. rewrite ensure_key_obj.
  unfold bind at 1. rewrite ensure_key_obj.
  rewrite ensure_key_obj. reflexivity.
Qed.

Lemma save_unreadable filename w :
  fs w !! filename = Some Unreadable ->
  save_alerts_to_file filename w = (Returns tt, with_line (ErrorSavingAlerts OSError) w).
Proof.
  intros H. unfold save_alerts_to_file, try_except, bind, json_load.
  rewrite H. reflexivity.
Qed.

Lemma existing_document_load filename ed w :
  existing_document (fs w !! filename) = Some ed ->
  try_except (json_load filename) not_found_or_decode (fun _ => ret empty_document) w
    = (Returns (JObj ed), w).
Proof.
  unfold try_except, json_load, existing_document.
  destruct (fs w !! filename) as [[| |[]]|]; simpl; intros H; try discriminate;
    injection H as <-; reflexivity.
Qed.

Lemma save_typed filename mem mine ed theirs w :
  alerts_database w = JObj mem ->
  Dict.lookup "alerts_by_time" mem = Some (JObj mine) ->
  existing_document (fs w !! filename) = Some ed ->
  by_time ed = Some theirs ->
  save_alerts_to_file filename w =
    let merged := merged_document mem mine ed theirs in
    match wmode w filename with
    | Writable =>
        (Returns tt,
         with_db (JObj (Dict.update mem merged))
           (with_file filename (Text (JObj merged)) w))
    | OpenRaises => (Returns tt, with_line (ErrorSavingAlerts OSError) w)
    | DumpRaises =>
        (Returns tt,
         with_line (ErrorSavingAlerts OSError) (with_file filename Garbage w))
    end.
Proof.
  intros Hdb Hmine Hed Htheirs.
  unfold save_alerts_to_file.
  unfold try_except at 1. unfold bind at 1.
  rewrite (existing_document_load _ _ _ Hed).
  unfold bind at 1. unfold get_db at 1. rewrite Hdb.
  unfold bind at 1. unfold lift at 1. simpl py_get.
  unfold bind at 1. unfold lift at 1. simpl py_setitem.
  unfold bind at 1. unfold lift at 1.
  unfold bind at 1. unfold lift at 1. simpl py_setitem.
  unfold field_or in *. fold (field_or "active_alerts" (JList []) mem).
  fold (field_or "read_alerts" (JList []) mem).
  set (ed2 := Dict.set "read_alerts" _ _).
  assert (Hl : Dict.lookup "alerts_by_time" ed2 = Dict.lookup "alerts_by_time" ed).
  { unfold ed2. rewrite !lookup_set_ne by discriminate. reflexivity. }
  assert (Hm : merged_document mem mine ed theirs =
               Dict.set "alerts_by_time" (JObj (Dict.update theirs mine)) ed2)
    by reflexivity.
  cbv zeta. rewrite Hm. clearbody ed2. clear Hm.
  unfold by_time in Htheirs. rewrite <- Hl in Htheirs.
  unfold bind at 1. unfold lift at 1. simpl py_contains. unfold Dict.mem.
  destruct (Dict.lookup "alerts_by_time" ed2) as [[]|] eqn:Hslot; try discriminate;
    injection Htheirs as <-.
  - unfold bind, lift, ret. simpl. rewrite Hmine. simpl.
    rewrite (merge_alerts_obj _ _ _ _ Hslot).
    unfold json_dump. destruct (wmode w filename); simpl; [rewrite Hdb|..]; reflexivity.
  - unfold bind, lift, ret. simpl. rewrite Hmine. simpl.
    rewrite (merge_alerts_obj _ _ [] _) by apply lookup_set_eq.
    rewrite set_set.
    unfold json_dump. destruct (wmode w filename); simpl; [rewrite Hdb|..]; reflexivity.
Qed.
End Execution.

Section Documents.
Implicit Types (w : world) (d e mem : dict) (filename : string).

Lemma lookup_setdefault k k' v d :
  Dict.lookup k' (setdefault k v d) =
    match Dict.lookup k' d with
    | Some x => Some x
    | None => if String.eqb k' k then Some v else None
    end.
Proof.
  unfold setdefault, Dict.mem.
  destruct (Dict.lookup k d) eqn:Hk.
  - destruct (Dict.lookup k' d) eqn:Hk'; [reflexivity|].
    destruct (String.eqb_spec k' k) as [->|]; [congruence | reflexivity].
  - rewrite lookup_set.
    destruct (String.eqb_spec k' k) as [->|]; [rewrite Hk; reflexivity|].
    destruct (Dict.lookup k' d); reflexivity.
Qed.

Lemma lookup_filled k d :
  Dict.lookup k (filled d) =
    match Dict.lookup k d with Some v => Some v | None => default_field k end.
Proof.
  unfold filled, default_field. rewrite !lookup_setdefault.
  destruct (Dict.lookup k d); [reflexivity|].
  destruct (String.eqb k "alerts_by_time"); [reflexivity|].
  destruct (String.eqb k "active_alerts"); reflexivity.
Qed.

Lemma load_typed filename ed w :
  existing_document (fs w !! filename) = Some ed ->
  load_alerts_from_file filename w = (Returns tt, with_db (JObj (filled ed)) w).
Proof.
  unfold existing_document.
  destruct (fs w !! filename) as [[| |[]]|] eqn:Hf; intros H; try discriminate;
    injection H as <-.
  - apply load_missing. right. exact Hf.
  - apply load_object. exact Hf.
  - apply load_missing. left. exact Hf.
Qed.

Lemma by_time_filled ed theirs :
  by_time ed = Some theirs ->
  Dict.lookup "alerts_by_time" (filled ed) = Some (JObj theirs).
Proof.
  unfold by_time. rewrite lookup_filled.
  destruct (Dict.lookup "alerts_by_time" ed) as [[]|]; intros H; try discriminate;
    injection H as <-; reflexivity.
Qed.

Lemma lookup_merged k mem mine ed theirs :
  Dict.lookup k (merged_document mem mine ed theirs) =
    if String.eqb k "alerts_by_time" then Some (JObj (Dict.update theirs mine))
    else if String.eqb k "read_alerts" then Some (field_or "read_alerts" (JList []) mem)
    else if String.eqb k "active_alerts" then Some (field_or "active_alerts" (JList []) mem)
    else Dict.lookup k ed.
Proof. unfold merged_document. rewrite !lookup_set. reflexivity. Qed.

Lemma NoDup_merged mem mine ed theirs :
  NoDup (Dict.keys ed) -> NoDup (Dict.keys (merged_document mem mine ed theirs)).
Proof. intros H. unfold merged_document. do 3 apply NoDup_keys_set. exact H. Qed.

End Documents.

(** ** Save

    Claim C1, amended. Whenever the in-memory document is an object whose
    [alerts_by_time] is an object, the path holds nothing, text that is not
    JSON or a JSON object whose [alerts_by_time] is absent or an object, and
    the write succeeds, [save_alerts_to_file] writes a merged document whose
    [active_alerts] and [read_alerts] are the in-memory values (an empty
    list for a field the in-memory document lacks) and whose
    [alerts_by_time] maps every hour of the in-memory map to the in-memory
    record and every other hour to the record found on disk. Afterwards the
    in-memory document holds every field of the merged document with the
    merged value, and keeps the fields of its own that the merged document
    does not have. *)
Theorem save_merges filename mem mine ed theirs w :
  alerts_database w = JObj mem ->
  Dict.lookup "alerts_by_time" mem = Some (JObj mine) ->
  NoDup (Dict.keys mine) ->
  existing_document (fs w !! filename) = Some ed ->
  NoDup (Dict.keys ed) ->
  by_time ed = Some theirs ->
  wmode w filename = Writable ->
  exists merged both mem',
    save_alerts_to_file filename w =
      (Returns tt, with_db (JObj mem') (with_file filename (Text (JObj merged)) w))
    /\ Dict.lookup "active_alerts" merged = Some (field_or "active_alerts" (JList []) mem)
    /\ Dict.lookup "read_alerts" merged = Some (field_or "read_alerts" (JList []) mem)
    /\ Dict.lookup "alerts_by_time" merged = Some (JObj both)
    /\ (forall hour, Dict.lookup hour both =
          match Dict.lookup hour mine with
          | Some r => Some r
          | None => Dict.lookup hour theirs
          end)
    /\ (forall k, Dict.lookup k mem' =
          match Dict.lookup k merged with
          | Some v => Some v
          | None => Dict.lookup k mem
          end).
Proof.
  intros Hdb Hmine Hnd Hed Hnde Htheirs Hw.
  exists (merged_document mem mine ed theirs), (Dict.update theirs mine),
         (Dict.update mem (merged_document mem mine ed theirs)).
  split; [|split; [|split; [|split; [|split]]]].
  - rewrite (save_typed _ _ _ _ _ _ Hdb Hmine Hed Htheirs), Hw. reflexivity.
  - rewrite lookup_merged. reflexivity.
  - rewrite lookup_merged. reflexivity.
  - rewrite lookup_merged. reflexivity.
  - intros hour. apply lookup_update, Hnd.
  - intros k. apply lookup_update, NoDup_merged, Hnde.
Qed.

Lemma save_merges_witness :
  let w := quiet (JObj memory_fields) stored in
  exists merged both mem',
    save_alerts_to_file "alerts.json" w =
      (Returns tt, with_db (JObj mem') (with_file "alerts.json" (Text (JObj merged)) w))
    /\ Dict.lookup "active_alerts" merged =
         Some (field_or "active_alerts" (JList []) memory_fields)
    /\ Dict.lookup "read_alerts" merged =
         Some (field_or "read_alerts" (JList []) memory_fields)
    /\ Dict.lookup "alerts_by_time" merged = Some (JObj both)
    /\ (forall hour, Dict.lookup hour both =
          match Dict.lookup hour [("09:00", stale_air); ("07:00", too_dry)] with
          | Some r => Some r
          | None => Dict.lookup hour two_alerts
          end)
    /\ (forall k, Dict.lookup k mem' =
          match Dict.lookup k merged with
          | Some v => Some v
          | None => Dict.lookup k memory_fields
          end).
Proof.
  apply (save_merges "alerts.json" memory_fields
           [("09:00", stale_air); ("07:00", too_dry)] stored_fields two_alerts
           (quiet (JObj memory_fields) stored)).
  - reflexivity.
  - reflexivity.
  - apply (bool_decide_unpack _). vm_compute. exact I.
  - reflexivity.
  - apply (bool_decide_unpack _). vm_compute. exact I.
  - reflexivity.
  - reflexivity.
Defined.

(** Claim C1 as stated fails on its last part: with an in-memory document
    that has a field of its own and no file at the path, the save writes a
    document without that field, and the in-memory document still has it
    afterwards. *)
Lemma save_memory_differs_from_written :
  let w := quiet (JObj memory_fields) ∅ in
  let w' := (save_alerts_to_file "alerts.json" w).2 in
  exists written,
    fs w' !! "alerts.json" = Some (Text written)
    /\ ~ same_fields (alerts_database w') written.
Proof.
  eexists. split; [reflexivity|].
  intros H. specialize (H "theme"). discriminate H.
Qed.

Lemma complete_filled d : complete (JObj (filled d)) = true.
Proof.
  unfold complete, Dict.mem. rewrite !lookup_filled.
  destruct (Dict.lookup "active_alerts" d), (Dict.lookup "read_alerts" d),
    (Dict.lookup "alerts_by_time" d); reflexivity.
Qed.

(** ** Load

    Claim C2, amended. When the path holds nothing, text that is not JSON,
    or a JSON object, [load_alerts_from_file] returns normally and leaves a
    document with all three fields: the empty document in the first two
    cases, and otherwise the parsed object with every field it has kept as
    it is and each missing one of the three fields set to its empty
    default. *)
Theorem load_total_on_documents filename ed w :
  existing_document (fs w !! filename) = Some ed ->
  exists d',
    load_alerts_from_file filename w = (Returns tt, with_db (JObj d') w)
    /\ complete (JObj d') = true
    /\ (forall k, Dict.lookup k d' =
          match Dict.lookup k ed with
          | Some v => Some v
          | None => default_field k
          end)
    /\ (fs w !! filename = None \/ fs w !! filename = Some Garbage ->
        JObj d' = empty_document).
Proof.
  intros Hed. exists (filled ed).
  split; [apply load_typed, Hed|].
  split; [apply complete_filled|].
  split; [intros k; apply lookup_filled|].
  intros [H|H]; rewrite H in Hed; injection Hed as <-; reflexivity.
Qed.

Lemma load_total_on_documents_witness :
  exists d',
    load_alerts_from_file "alerts.json" (quiet JNull stored) =
      (Returns tt, with_db (JObj d') (quiet JNull stored))
    /\ complete (JObj d') = true
    /\ (forall k, Dict.lookup k d' =
          match Dict.lookup k stored_fields with
          | Some v => Some v
          | None => default_field k
          end)
    /\ (fs (quiet JNull stored) !! "alerts.json" = None \/
        fs (quiet JNull stored) !! "alerts.json" = Some Garbage ->
        JObj d' = empty_document).
Proof.
  apply (load_total_on_documents "alerts.json" stored_fields (quiet JNull stored)).
  reflexivity.
Defined.

(** Claim C2 as stated fails: a file holding the JSON text of an empty
    array is valid JSON, and loading it raises [TypeError] at the first
    field assignment, leaving the array as the in-memory document. *)
Lemma load_raises_on_array :
  let w := quiet empty_document {["alerts.json" := Text (JList [])]} in
  load_alerts_from_file "alerts.json" w = (Raises TypeError, with_db (JList []) w)
  /\ complete (alerts_database (load_alerts_from_file "alerts.json" w).2) = false.
Proof. split; reflexivity. Qed.

Lemma core_field_false k :
  core_field k = false ->
  String.eqb k "alerts_by_time" = false /\ String.eqb k "read_alerts" = false
  /\ String.eqb k "active_alerts" = false.
Proof.
  unfold core_field, default_field.
  destruct (String.eqb k "alerts_by_time"); [discriminate|].
  destruct (String.eqb k "active_alerts"); [discriminate|].
  destruct (String.eqb k "read_alerts"); [discriminate|]. auto.
Qed.

Lemma lookup_merged_extra k mem mine ed theirs :
  core_field k = false ->
  Dict.lookup k (merged_document mem mine ed theirs) = Dict.lookup k ed.
Proof.
  intros H. apply core_field_false in H as (H1 & H2 & H3).
  rewrite lookup_merged, H1, H2, H3. reflexivity.
Qed.

(** Claim C10. When the file holds a JSON object (and the save reaches a
    successful write), every top-level field of that object other than
    [active_alerts], [read_alerts] and [alerts_by_time] is in the document
    written back, and in the updated in-memory document, under the same key
    with the same value; and a key outside those three that the file's
    object does not have is not in the written document, whatever the
    in-memory document holds under it. *)
Theorem save_carries_extra_fields filename mem mine ed theirs w :
  alerts_database w = JObj mem ->
  Dict.lookup "alerts_by_time" mem = Some (JObj mine) ->
  fs w !! filename = Some (Text (JObj ed)) ->
  NoDup (Dict.keys ed) ->
  by_time ed = Some theirs ->
  wmode w filename = Writable ->
  exists merged mem',
    save_alerts_to_file filename w =
      (Returns tt, with_db (JObj mem') (with_file filename (Text (JObj merged)) w))
    /\ (forall k v, core_field k = false -> Dict.lookup k ed = Some v ->
          Dict.lookup k merged = Some v /\ Dict.lookup k mem' = Some v)
    /\ (forall k, core_field k = false -> Dict.lookup k ed = None ->
          Dict.lookup k merged = None /\ Dict.lookup k mem' = Dict.lookup k mem).
Proof.
  intros Hdb Hmine Hf Hnd Htheirs Hw.
  assert (Hed : existing_document (fs w !! filename) = Some ed) by (rewrite Hf; reflexivity).
  exists (merged_document mem mine ed theirs),
         (Dict.update mem (merged_document mem mine ed theirs)).
  split; [|split].
  - rewrite (save_typed _ _ _ _ _ _ Hdb Hmine Hed Htheirs), Hw. reflexivity.
  - intros k v Hk Hv.
    rewrite lookup_update by apply NoDup_merged, Hnd.
    rewrite lookup_merged_extra, Hv by exact Hk. split; reflexivity.
  - intros k Hk Hv.
    rewrite lookup_update by apply NoDup_merged, Hnd.
    rewrite lookup_merged_extra, Hv by exact Hk. split; reflexivity.
Qed.

Lemma save_carries_extra_fields_witness :
  let w := quiet (JObj memory_fields) stored in
  exists merged mem',
    save_alerts_to_file "alerts.json" w =
      (Returns tt, with_db (JObj mem') (with_file "alerts.json" (Text (JObj merged)) w))
    /\ (forall k v, core_field k = false -> Dict.lookup k stored_fields = Some v ->
          Dict.lookup k merged = Some v /\ Dict.lookup k mem' = Some v)
    /\ (forall k, core_field k = false -> Dict.lookup k stored_fields = None ->
          Dict.lookup k merged = None /\ Dict.lookup k mem' = Dict.lookup k memory_fields).
Proof.
  apply (save_carries_extra_fields "alerts.json" memory_fields
           [("09:00", stale_air); ("07:00", too_dry)] stored_fields two_alerts
           (quiet (JObj memory_fields) stored)).
  - reflexivity.
  - reflexivity.
  - reflexivity.
  - apply (bool_decide_unpack _). vm_compute. exact I.
  - reflexivity.
  - reflexivity.
Defined.

(** Claim C5, amended. When the save reaches its write and the write
    fails, at the open or during the dump, [save_alerts_to_file] returns
    normally, the failure is printed as one line on the standard output,
    and the in-memory document is the one from before the call (the merged
    result is not installed). It is a no-op with a warning only when the
    open itself fails: the files are then as before. When the failure comes
    after the open, which truncates, the file is left as text that is not
    JSON, whatever it held. *)
Theorem save_write_failure filename mem mine ed theirs w :
  alerts_database w = JObj mem ->
  Dict.lookup "alerts_by_time" mem = Some (JObj mine) ->
  existing_document (fs w !! filename) = Some ed ->
  by_time ed = Some theirs ->
  wmode w filename <> Writable ->
  exists w',
    save_alerts_to_file filename w = (Returns tt, w')
    /\ alerts_database w' = alerts_database w
    /\ stdout w' = stdout w ++ [ErrorSavingAlerts OSError]
    /\ (wmode w filename = OpenRaises -> fs w' = fs w)
    /\ (wmode w filename = DumpRaises -> fs w' = <[filename := Garbage]> (fs w)).
Proof.
  intros Hdb Hmine Hed Htheirs Hw.
  rewrite (save_typed _ _ _ _ _ _ Hdb Hmine Hed Htheirs). cbv zeta.
  destruct (wmode w filename); [contradiction| |].
  - eexists. split; [reflexivity|]. split; [reflexivity|]. split; [reflexivity|].
    split; [reflexivity | discriminate].
  - eexists. split; [reflexivity|]. split; [reflexivity|]. split; [reflexivity|].
    split; [discriminate | reflexivity].
Qed.

Lemma save_write_failure_witness :
  let w := World (JObj memory_fields) stored (fun _ => DumpRaises) [] in
  exists w',
    save_alerts_to_file "alerts.json" w = (Returns tt, w')
    /\ alerts_database w' = alerts_database w
    /\ stdout w' = stdout w ++ [ErrorSavingAlerts OSError]
    /\ (wmode w "alerts.json" = OpenRaises -> fs w' = fs w)
    /\ (wmode w "alerts.json" = DumpRaises -> fs w' = <["alerts.json" := Garbage]> (fs w)).
Proof.
  apply (save_write_failure "alerts.json" memory_fields
           [("09:00", stale_air); ("07:00", too_dry)] stored_fields two_alerts
           (World (JObj memory_fields) stored (fun _ => DumpRaises) [])).
  - reflexivity.
  - reflexivity.
  - reflexivity.
  - reflexivity.
  - discriminate.
Defined.

(** Claim C5 as stated fails on "no-op": when the dump fails after the
    open, the save returns normally and leaves the in-memory document alone,
    but the file, which held a document with two alerts, no longer holds
    JSON, and a reload finds no alert. *)
Lemma save_dump_failure_truncates :
  let w := World (JObj memory_fields) stored (fun _ => DumpRaises) [] in
  let w' := (save_alerts_to_file "alerts.json" w).2 in
  (save_alerts_to_file "alerts.json" w).1 = Returns tt
  /\ alerts_database w' = alerts_database w
  /\ fs w !! "alerts.json" = Some (Text (JObj stored_fields))
  /\ fs w' !! "alerts.json" = Some Garbage
  /\ fs w' <> fs w
  /\ (get_alerts_by_time "alerts.json" w').1 = Returns (JObj []).
Proof.
  split; [reflexivity|]. split; [reflexivity|]. split; [reflexivity|].
  split; [reflexivity|]. split; [|reflexivity].
  intros H. apply (f_equal (fun m => m !! "alerts.json")) in H.
  vm_compute in H. discriminate H.
Qed.

Section Add.
Implicit Types (w : world) (d ed theirs : dict) (hour filename : string).

Lemma add_is_save hour parameter value message filename ed theirs w :
  existing_document (fs w !! filename) = Some ed ->
  by_time ed = Some theirs ->
  add_alert_by_time hour parameter value message filename w =
    save_alerts_to_file filename
      (with_db (JObj (added_memory hour (alert_record parameter value message) ed theirs)) w).
Proof.
  intros Hed Htheirs. unfold add_alert_by_time.
  unfold bind at 1. rewrite (load_typed _ _ _ Hed).
  unfold bind at 1. unfold get_db at 1. cbn [alerts_database with_db].
  unfold bind at 1. unfold lift at 1. cbn [py_getitem].
  rewrite (by_time_filled _ _ Htheirs).
  unfold bind at 1. unfold lift at 1. cbn [py_setitem].
  unfold bind at 1. unfold lift at 1. cbn [py_setitem].
  unfold bind at 1. unfold set_db at 1. reflexivity.
Qed.

Lemma add_typed hour parameter value message filename ed theirs w :
  existing_document (fs w !! filename) = Some ed ->
  by_time ed = Some theirs ->
  wmode w filename = Writable ->
  add_alert_by_time hour parameter value message filename w =
    let record := alert_record parameter value message in
    let merged := added_document hour record ed theirs in
    (Returns tt,
     with_db (JObj (Dict.update (added_memory hour record ed theirs) merged))
       (with_file filename (Text (JObj merged)) w)).
Proof.
  intros Hed Htheirs Hw.
  rewrite (add_is_save _ _ _ _ _ _ _ _ Hed Htheirs).
  rewrite (save_typed filename
             (added_memory hour (alert_record parameter value message) ed theirs)
             (Dict.set hour (alert_record parameter value message) theirs) ed theirs).
  - cbn [wmode with_db]. rewrite Hw. reflexivity.
  - reflexivity.
  - unfold added_memory. apply lookup_set_eq.
  - exact Hed.
  - exact Htheirs.
Qed.

Lemma by_time_added hour record ed theirs :
  by_time (added_document hour record ed theirs) =
    Some (Dict.update theirs (Dict.set hour record theirs)).
Proof. unfold by_time, added_document. rewrite lookup_merged. reflexivity. Qed.

Lemma NoDup_added hour record ed theirs :
  NoDup (Dict.keys ed) -> NoDup (Dict.keys (added_document hour record ed theirs)).
Proof. apply NoDup_merged. Qed.

Lemma lookup_added_slot hour record theirs :
  NoDup (Dict.keys theirs) ->
  Dict.lookup hour (Dict.update theirs (Dict.set hour record theirs)) = Some record.
Proof.
  intros H. rewrite lookup_update by apply NoDup_keys_set, H.
  rewrite lookup_set_eq. reflexivity.
Qed.

Lemma added_slot_fresh hour record theirs :
  NoDup (Dict.keys theirs) ->
  Dict.lookup hour theirs = None ->
  Dict.update theirs (Dict.set hour record theirs) = theirs ++ [(hour, record)].
Proof.
  intros Hnd Hfresh. rewrite (set_fresh _ _ _ Hfresh), update_snoc.
  rewrite update_self by exact Hnd. apply set_fresh, Hfresh.
Qed.

Lemma memory_after_add hour record ed theirs :
  NoDup (Dict.keys ed) ->
  Dict.lookup "alerts_by_time"
    (Dict.update (added_memory hour record ed theirs) (added_document hour record ed theirs))
  = Some (JObj (Dict.update theirs (Dict.set hour record theirs))).
Proof.
  intros H. rewrite lookup_update by apply NoDup_added, H.
  unfold added_document. rewrite lookup_merged. reflexivity.
Qed.

Lemma lookup_added_memory k hour record ed theirs :
  Dict.lookup k (added_memory hour record ed theirs) =
    if String.eqb k "alerts_by_time" then Some (JObj (Dict.set hour record theirs))
    else match Dict.lookup k ed with
         | Some v => Some v
         | None => default_field k
         end.
Proof. unfold added_memory. rewrite lookup_set, lookup_filled. reflexivity. Qed.

(** The written document of an add, field by field: [alerts_by_time] is
    the merged map, every other field is the one found at the path, and a
    list the path did not have is empty. *)
Lemma lookup_added_document k hour record ed theirs :
  Dict.lookup k (added_document hour record ed theirs) =
    if String.eqb k "alerts_by_time"
    then Some (JObj (Dict.update theirs (Dict.set hour record theirs)))
    else match Dict.lookup k ed with
         | Some v => Some v
         | None => default_field k
         end.
Proof.
  unfold added_document. rewrite lookup_merged.
  destruct (String.eqb k "alerts_by_time") eqn:Ha; [reflexivity|].
  unfold field_or. rewrite !lookup_added_memory.
  cbn [String.eqb Ascii.eqb Bool.eqb]. unfold default_field. rewrite Ha.
  destruct (String.eqb_spec k "read_alerts") as [->|Hr].
  { cbn [String.eqb Ascii.eqb Bool.eqb].
    destruct (Dict.lookup "read_alerts" ed); reflexivity. }
  destruct (String.eqb_spec k "active_alerts") as [->|Hact].
  { cbn [String.eqb Ascii.eqb Bool.eqb].
    destruct (Dict.lookup "active_alerts" ed); reflexivity. }
  destruct (Dict.lookup k ed); reflexivity.
Qed.

Lemma lookup_added_slot_all h hour record theirs :
  NoDup (Dict.keys theirs) ->
  Dict.lookup h (Dict.update theirs (Dict.set hour record theirs)) =
    if String.eqb h hour then Some record else Dict.lookup h theirs.
Proof.
  intros Hnd. rewrite lookup_update by apply NoDup_keys_set, Hnd.
  rewrite lookup_set. destruct (String.eqb h hour); [reflexivity|].
  destruct (Dict.lookup h theirs); reflexivity.
Qed.

(** After a successful add the in-memory document and the written one
    have the same fields. *)
Lemma memory_matches_added_document hour record ed theirs :
  NoDup (Dict.keys ed) ->
  same_fields
    (JObj (Dict.update (added_memory hour record ed theirs)
             (added_document hour record ed theirs)))
    (JObj (added_document hour record ed theirs)).
Proof.
  intros Hnd k. rewrite lookup_update by apply NoDup_added, Hnd.
  destruct (Dict.lookup k (added_document hour record ed theirs)) eqn:Hk; [reflexivity|].
  rewrite lookup_added_document in Hk. rewrite lookup_added_memory.
  destruct (String.eqb k "alerts_by_time"); [discriminate Hk | exact Hk].
Qed.

End Add.

(** Claim C3, amended. For every hour, parameter, value and message, and
    every path that holds nothing, text that is not JSON, or a document (a
    JSON object whose [alerts_by_time] is absent or an object) and that can
    be written: [add_alert_by_time] returns normally, and what it leaves
    does not depend on the in-memory document it starts from, because it
    reloads from the path first. The document it writes is the one found at
    the path, every field other than [alerts_by_time] kept with its value
    (a missing [active_alerts] or [read_alerts] filled with the empty list),
    with [alerts_by_time] set at the hour to the four-field record built
    from the arguments, [read] false, whatever was stored at that hour
    before, and unchanged at every other hour; the in-memory document has
    the same fields as the written one. After a second call at the same
    hour the file and the in-memory document have exactly one entry at that
    hour, the record of the second call, and the other hours are still as
    they were found. *)
Theorem add_alert_by_time_overwrites hour p1 v1 m1 p2 v2 m2 filename ed theirs w :
  existing_document (fs w !! filename) = Some ed ->
  NoDup (Dict.keys ed) ->
  by_time ed = Some theirs ->
  NoDup (Dict.keys theirs) ->
  wmode w filename = Writable ->
  exists w1 w2 doc1 slot1 doc2 mem2 slot2,
    add_alert_by_time hour p1 v1 m1 filename w = (Returns tt, w1)
    /\ (forall db, add_alert_by_time hour p1 v1 m1 filename (with_db db w) = (Returns tt, w1))
    /\ fs w1 !! filename = Some (Text (JObj doc1))
    /\ (forall k, Dict.lookup k doc1 =
          if String.eqb k "alerts_by_time" then Some (JObj slot1)
          else match Dict.lookup k ed with
               | Some v => Some v
               | None => default_field k
               end)
    /\ (forall h, Dict.lookup h slot1 =
          if String.eqb h hour then Some (alert_record p1 v1 m1) else Dict.lookup h theirs)
    /\ entries_at hour slot1 = [(hour, alert_record p1 v1 m1)]
    /\ same_fields (alerts_database w1) (JObj doc1)
    /\ add_alert_by_time hour p2 v2 m2 filename w1 = (Returns tt, w2)
    /\ fs w2 !! filename = Some (Text (JObj doc2))
    /\ (forall k, Dict.lookup k doc2 =
          if String.eqb k "alerts_by_time" then Some (JObj slot2)
          else match Dict.lookup k ed with
               | Some v => Some v
               | None => default_field k
               end)
    /\ alerts_database w2 = JObj mem2
    /\ Dict.lookup "alerts_by_time" mem2 = Some (JObj slot2)
    /\ (forall h, Dict.lookup h slot2 =
          if String.eqb h hour then Some (alert_record p2 v2 m2) else Dict.lookup h theirs)
    /\ entries_at hour slot2 = [(hour, alert_record p2 v2 m2)].
Proof.
  intros Hed Hnd Htheirs Hndt Hw.
  set (r1 := alert_record p1 v1 m1). set (r2 := alert_record p2 v2 m2).
  set (doc1 := added_document hour r1 ed theirs).
  set (slot1 := Dict.update theirs (Dict.set hour r1 theirs)).
  set (w1 := with_db (JObj (Dict.update (added_memory hour r1 ed theirs) doc1))
               (with_file filename (Text (JObj doc1)) w)).
  assert (Hf1 : fs w1 !! filename = Some (Text (JObj doc1))) by apply lookup_insert_eq.
  assert (Hed1 : existing_document (fs w1 !! filename) = Some doc1) by (rewrite Hf1; reflexivity).
  assert (Hnd1 : NoDup (Dict.keys doc1)) by apply NoDup_added, Hnd.
  assert (Hth1 : by_time doc1 = Some slot1) by apply by_time_added.
  assert (Hnds1 : NoDup (Dict.keys slot1)) by apply NoDup_keys_update, Hndt.
  assert (Hslot1 : forall h, Dict.lookup h slot1 =
                     if String.eqb h hour then Some r1 else Dict.lookup h theirs)
    by (intros h; apply lookup_added_slot_all, Hndt).
  set (doc2 := added_document hour r2 doc1 slot1).
  set (slot2 := Dict.update slot1 (Dict.set hour r2 slot1)).
  exists w1, (with_db (JObj (Dict.update (added_memory hour r2 doc1 slot1) doc2))
                (with_file filename (Text (JObj doc2)) w1)),
    doc1, slot1, doc2, (Dict.update (added_memory hour r2 doc1 slot1) doc2), slot2.
  split; [apply (add_typed _ _ _ _ _ _ _ _ Hed Htheirs Hw)|].
  split; [intros db;
          apply (add_typed hour p1 v1 m1 filename ed theirs (with_db db w) Hed Htheirs Hw)|].
  split; [exact Hf1|].
  split; [intros k; apply lookup_added_document|].
  split; [exact Hslot1|].
  split; [apply entries_at_unique; [exact Hnds1 | apply lookup_added_slot, Hndt]|].
  split; [apply memory_matches_added_document, Hnd|].
  split; [apply (add_typed _ _ _ _ _ _ _ _ Hed1 Hth1 Hw)|].
  split; [apply lookup_insert_eq|].
  split.
  { intros k. unfold doc2. rewrite lookup_added_document.
    destruct (String.eqb k "alerts_by_time") eqn:Ha; [reflexivity|].
    unfold doc1. rewrite lookup_added_document, Ha.
    destruct (Dict.lookup k ed); [reflexivity|].
    destruct (default_field k); reflexivity. }
  split; [reflexivity|].
  split; [apply memory_after_add, Hnd1|].
  split.
  { intros h. unfold slot2. rewrite lookup_added_slot_all by exact Hnds1.
    rewrite Hslot1. destruct (String.eqb h hour); reflexivity. }
  apply entries_at_unique; [apply NoDup_keys_update, Hnds1 | apply lookup_added_slot, Hnds1].
Qed.

Lemma add_alert_by_time_overwrites_witness :
  let ed := [("active_alerts", JList [JStr "07:00"]);
             ("alerts_by_time",
              JObj [("07:00", JObj [("read", JBool true)]); ("08:00", too_dry)])] in
  let theirs := [("07:00", JObj [("read", JBool true)]); ("08:00", too_dry)] in
  let w := quiet JNull {["alerts.json" := Text (JObj ed)]} in
  exists w1 w2 doc1 slot1 doc2 mem2 slot2,
    add_alert_by_time "07:00" (JStr "Temperature") (JInt 30) (JStr "Too hot") "alerts.json" w
      = (Returns tt, w1)
    /\ (forall db,
          add_alert_by_time "07:00" (JStr "Temperature") (JInt 30) (JStr "Too hot")
            "alerts.json" (with_db db w) = (Returns tt, w1))
    /\ fs w1 !! "alerts.json" = Some (Text (JObj doc1))
    /\ (forall k, Dict.lookup k doc1 =
          if String.eqb k "alerts_by_time" then Some (JObj slot1)
          else match Dict.lookup k ed with
               | Some v => Some v
               | None => default_field k
               end)
    /\ (forall h, Dict.lookup h slot1 =
          if String.eqb h "07:00"
          then Some (alert_record (JStr "Temperature") (JInt 30) (JStr "Too hot"))
          else Dict.lookup h theirs)
    /\ entries_at "07:00" slot1 =
         [("07:00", alert_record (JStr "Temperature") (JInt 30) (JStr "Too hot"))]
    /\ same_fields (alerts_database w1) (JObj doc1)
    /\ add_alert_by_time "07:00" (JStr "Temperature") (JInt 30) (JStr "Far too hot")
         "alerts.json" w1 = (Returns tt, w2)
    /\ fs w2 !! "alerts.json" = Some (Text (JObj doc2))
    /\ (forall k, Dict.lookup k doc2 =
          if String.eqb k "alerts_by_time" then Some (JObj slot2)
          else match Dict.lookup k ed with
               | Some v => Some v
               | None => default_field k
               end)
    /\ alerts_database w2 = JObj mem2
    /\ Dict.lookup "alerts_by_time" mem2 = Some (JObj slot2)
    /\ (forall h, Dict.lookup h slot2 =
          if String.eqb h "07:00"
          then Some (alert_record (JStr "Temperature") (JInt 30) (JStr "Far too hot"))
          else Dict.lookup h theirs)
    /\ entries_at "07:00" slot2 =
         [("07:00", alert_record (JStr "Temperature") (JInt 30) (JStr "Far too hot"))].
Proof.
  apply (add_alert_by_time_overwrites "07:00"
           (JStr "Temperature") (JInt 30) (JStr "Too hot")
           (JStr "Temperature") (JInt 30) (JStr "Far too hot") "alerts.json"
           [("active_alerts", JList [JStr "07:00"]);
            ("alerts_by_time",
             JObj [("07:00", JObj [("read", JBool true)]); ("08:00", too_dry)])]
           [("07:00", JObj [("read", JBool true)]); ("08:00", too_dry)]).
  - reflexivity.
  - apply (bool_decide_unpack _). vm_compute. exact I.
  - reflexivity.
  - apply (bool_decide_unpack _). vm_compute. exact I.
  - reflexivity.
Defined.

(** Claim C3 as stated fails on "every path": with a file that holds the
    JSON text of an empty array the add raises [TypeError] during its
    reload; it sets no alert and saves nothing, the file is as before and
    the array is left as the in-memory document. *)
Lemma add_raises_on_array :
  let w := quiet empty_document {["alerts.json" := Text (JList [])]} in
  add_alert_by_time "07:00" (JStr "Temperature") (JInt 30) (JStr "Too hot") "alerts.json" w
    = (Raises TypeError, with_db (JList []) w)
  /\ fs (with_db (JList []) w) !! "alerts.json" = Some (Text (JList [])).
Proof. split; reflexivity. Qed.

(** Claim C8. When the file holds a document whose [alerts_by_time] does
    not have the hour being added (and the write succeeds),
    [add_alert_by_time] leaves on disk an [alerts_by_time] made of all the
    previous entries, in their order and with their records unchanged,
    followed by the new hour with its record. *)
Theorem add_alert_by_time_frame hour parameter value message filename ed theirs w :
  fs w !! filename = Some (Text (JObj ed)) ->
  Dict.lookup "alerts_by_time" ed = Some (JObj theirs) ->
  NoDup (Dict.keys theirs) ->
  Dict.lookup hour theirs = None ->
  wmode w filename = Writable ->
  exists w' doc,
    add_alert_by_time hour parameter value message filename w = (Returns tt, w')
    /\ fs w' !! filename = Some (Text (JObj doc))
    /\ Dict.lookup "alerts_by_time" doc =
         Some (JObj (theirs ++ [(hour, alert_record parameter value message)]))
    /\ (forall k r, Dict.lookup k theirs = Some r ->
          Dict.lookup k (theirs ++ [(hour, alert_record parameter value message)]) = Some r).
Proof.
  intros Hf Hslot Hnd Hfresh Hw.
  assert (Hed : existing_document (fs w !! filename) = Some ed) by (rewrite Hf; reflexivity).
  assert (Htheirs : by_time ed = Some theirs) by (unfold by_time; rewrite Hslot; reflexivity).
  eexists _, _. split; [apply (add_typed _ _ _ _ _ _ _ _ Hed Htheirs Hw)|].
  split; [apply lookup_insert_eq|]. split.
  - unfold added_document. rewrite lookup_merged. cbn [String.eqb Ascii.eqb Bool.eqb].
    rewrite added_slot_fresh by assumption. reflexivity.
  - intros k r Hk. rewrite <- (set_fresh _ _ _ Hfresh), lookup_set_ne; [exact Hk|].
    intros ->. congruence.
Qed.

Lemma add_alert_by_time_frame_witness :
  let w := quiet JNull stored in
  exists w' doc,
    add_alert_by_time "09:00" (JStr "CO2") (JInt 900) (JStr "Open a window") "alerts.json" w
      = (Returns tt, w')
    /\ fs w' !! "alerts.json" = Some (Text (JObj doc))
    /\ Dict.lookup "alerts_by_time" doc = Some (JObj (two_alerts ++ [("09:00", stale_air)]))
    /\ (forall k r, Dict.lookup k two_alerts = Some r ->
          Dict.lookup k (two_alerts ++ [("09:00", stale_air)]) = Some r).
Proof.
  apply (add_alert_by_time_frame "09:00" (JStr "CO2") (JInt 900) (JStr "Open a window")
           "alerts.json" stored_fields two_alerts (quiet JNull stored)).
  - reflexivity.
  - reflexivity.
  - apply (bool_decide_unpack _). vm_compute. exact I.
  - reflexivity.
  - reflexivity.
Defined.

Lemma merge_alerts_keeps_world items existing w o w' :
  merge_alerts items existing w = (o, w') -> w' = w.
Proof.
  revert existing. induction items as [|[hour info] items IH]; intros existing; simpl.
  - unfold ret. congruence.
  - unfold bind, lift.
    destruct (py_getitem existing "alerts_by_time"); [|congruence].
    destruct (py_setitem a hour info); [|congruence].
    destruct (py_setitem existing "alerts_by_time" a0); [|congruence].
    apply IH.
Qed.

Lemma merge_alerts_result items ed merged w w' :
  merge_alerts items (JObj ed) w = (Returns merged, w') ->
  items = [] /\ merged = JObj ed \/
  exists slot,
    Dict.lookup "alerts_by_time" ed = Some (JObj slot)
    /\ merged = JObj (Dict.set "alerts_by_time" (JObj (Dict.update slot items)) ed).
Proof.
  destruct items as [|[hour info] items].
  - simpl. unfold ret. intros [= <- _]. left. auto.
  - intros H. right.
    destruct (Dict.lookup "alerts_by_time" ed) as [[]|] eqn:Hslot;
      try (exfalso; revert H; simpl; unfold bind at 1; unfold lift at 1; simpl;
           rewrite Hslot; unfold bind, lift; simpl; discriminate).
    exists d. split; [reflexivity|].
    rewrite (merge_alerts_obj _ _ _ _ Hslot) in H. congruence.
Qed.

Lemma complete_merged mem mine ed theirs :
  complete (JObj (merged_document mem mine ed theirs)) = true.
Proof. unfold complete, Dict.mem. rewrite !lookup_merged. reflexivity. Qed.

(** The document a save with an empty in-memory map writes when the
    document at the path has an [alerts_by_time] that is not an object:
    the loop does not run and the field is left as it is. *)
Lemma save_untyped_slot filename mem mine ed w :
  alerts_database w = JObj mem ->
  Dict.lookup "alerts_by_time" mem = Some (JObj mine) ->
  existing_document (fs w !! filename) = Some ed ->
  by_time ed = None ->
  save_alerts_to_file filename w =
    let merged :=
      Dict.set "read_alerts" (field_or "read_alerts" (JList []) mem)
        (Dict.set "active_alerts" (field_or "active_alerts" (JList []) mem) ed) in
    match mine with
    | [] =>
        match wmode w filename with
        | Writable =>
            (Returns tt,
             with_db (JObj (Dict.update mem merged))
               (with_file filename (Text (JObj merged)) w))
        | OpenRaises => (Returns tt, with_line (ErrorSavingAlerts OSError) w)
        | DumpRaises =>
            (Returns tt,
             with_line (ErrorSavingAlerts OSError) (with_file filename Garbage w))
        end
    | _ :: _ => (Raises TypeError, w)
    end.
Proof.
  intros Hdb Hmine Hed Htheirs.
  unfold save_alerts_to_file.
  unfold try_except at 1. unfold bind at 1.
  rewrite (existing_document_load _ _ _ Hed).
  unfold bind at 1. unfold get_db at 1. rewrite Hdb.
  unfold bind at 1. unfold lift at 1. simpl py_get.
  unfold bind at 1. unfold lift at 1. simpl py_setitem.
  unfold bind at 1. unfold lift at 1.
  unfold bind at 1. unfold lift at 1. simpl py_setitem.
  fold (field_or "active_alerts" (JList []) mem).
  fold (field_or "read_alerts" (JList []) mem).
  set (ed2 := Dict.set "read_alerts" _ _).
  assert (Hl : Dict.lookup "alerts_by_time" ed2 = Dict.lookup "alerts_by_time" ed).
  { unfold ed2. rewrite !lookup_set_ne by discriminate. reflexivity. }
  cbv zeta. clearbody ed2.
  unfold by_time in Htheirs. rewrite <- Hl in Htheirs.
  unfold bind at 1. unfold lift at 1. simpl py_contains. unfold Dict.mem.
  destruct (Dict.lookup "alerts_by_time" ed2) as [slot|] eqn:Hslot; [|discriminate].
  unfold bind at 1. unfold ret at 1.
  unfold bind at 1. unfold lift at 1. simpl py_getitem. rewrite Hmine.
  unfold bind at 1. unfold lift at 1. simpl py_items.
  destruct mine as [|[hour info] mine].
  - unfold bind, lift, ret, json_dump. simpl.
    destruct (wmode w filename); simpl; [rewrite Hdb|..]; reflexivity.
  - unfold bind at 1. simpl merge_alerts.
    unfold bind at 1. unfold lift at 1. simpl py_getitem. rewrite Hslot.
    destruct slot; try discriminate; reflexivity.
Qed.

Lemma stdout_grew (l : list line) (x : line) : l ++ [x] <> l.
Proof.
  intros H. apply (f_equal length) in H. rewrite length_app in H. simpl in H. lia.
Qed.

Lemma save_success_inv filename w w1 :
  save_alerts_to_file filename w = (Returns tt, w1) ->
  stdout w1 = stdout w ->
  exists mem mine ed merged,
    alerts_database w = JObj mem
    /\ Dict.lookup "alerts_by_time" mem = Some (JObj mine)
    /\ existing_document (fs w !! filename) = Some ed
    /\ wmode w filename = Writable
    /\ w1 = with_db (JObj (Dict.update mem merged))
              (with_file filename (Text (JObj merged)) w)
    /\ complete (JObj merged) = true
    /\ (mine = [] \/
        exists theirs, by_time ed = Some theirs
                       /\ merged = merged_document mem mine ed theirs).
Proof.
  intros H Hout. pose proof H as H0.
  unfold save_alerts_to_file, try_except, bind, json_load, get_db, lift, ret in H.
  destruct (fs w !! filename) as [[| |v]|] eqn:Hf;
    destruct (alerts_database w) as [| | | | | |mem] eqn:Hdb;
    simpl in H; rewrite ?Hdb in H; simpl in H; try discriminate.
  all: try (injection H as <-; exfalso; revert Hout; apply stdout_grew).
  2: destruct v as [| | | | | |ed]; simpl in H; try discriminate.
  all: destruct (Dict.lookup "alerts_by_time" mem) as [[| | | | | |mine]|] eqn:Hmine;
    simpl in H; try discriminate.
  all: try (destruct (Dict.mem "alerts_by_time" _) in H; simpl in H; discriminate H).
  all: clear H.
  all: assert (Hed : exists ed0, existing_document (fs w !! filename) = Some ed0)
         by (rewrite Hf; eexists; reflexivity).
  all: destruct Hed as [ed0 Hed]; rewrite <- Hf; clear Hf.
  all: exists mem, mine, ed0.
  all: destruct (by_time ed0) as [theirs|] eqn:Htheirs.
  1,3,5: exists (merged_document mem mine ed0 theirs);
    rewrite (save_typed _ _ _ _ _ _ Hdb Hmine Hed Htheirs) in H0; cbv zeta in H0;
    destruct (wmode w filename) eqn:Hw; injection H0 as <-;
    try (exfalso; revert Hout; apply stdout_grew);
    repeat split; try assumption; [apply complete_merged | right; eauto].
  all: rewrite (save_untyped_slot _ _ _ _ _ Hdb Hmine Hed Htheirs) in H0; cbv zeta in H0;
    (destruct mine; [|discriminate]);
    destruct (wmode w filename) eqn:Hw; injection H0 as <-;
    try (exfalso; revert Hout; apply stdout_grew);
    eexists; repeat split; try assumption; [|left; reflexivity];
    unfold complete, Dict.mem; rewrite !lookup_set; simpl;
    unfold by_time in Htheirs;
    (destruct (Dict.lookup "alerts_by_time" ed0); [reflexivity|discriminate]).
Qed.

(** Claim C4. For any in-memory document and any state of the path: when
    [save_alerts_to_file] succeeds (it returns normally and prints no
    diagnostic), [load_alerts_from_file] on the same path returns normally
    with a complete document, and every hour of the saved document's
    [alerts_by_time] is in the loaded [alerts_by_time] with the record that
    was saved. *)
Theorem save_then_load filename w w1 :
  save_alerts_to_file filename w = (Returns tt, w1) ->
  stdout w1 = stdout w ->
  exists w2,
    load_alerts_from_file filename w1 = (Returns tt, w2)
    /\ complete (alerts_database w2) = true
    /\ forall mem mine hour r,
         alerts_database w = JObj mem ->
         Dict.lookup "alerts_by_time" mem = Some (JObj mine) ->
         NoDup (Dict.keys mine) ->
         Dict.lookup hour mine = Some r ->
         exists loaded slot,
           alerts_database w2 = JObj loaded
           /\ Dict.lookup "alerts_by_time" loaded = Some (JObj slot)
           /\ Dict.lookup hour slot = Some r.
Proof.
  intros H Hout.
  destruct (save_success_inv _ _ _ H Hout)
    as (mem0 & mine0 & ed & merged & Hdb & Hmine & Hed & Hw & -> & Hc & Hm).
  exists (with_db (JObj (filled merged))
            (with_db (JObj (Dict.update mem0 merged))
               (with_file filename (Text (JObj merged)) w))).
  split; [|split].
  - apply load_object. apply lookup_insert_eq.
  - apply complete_filled.
  - intros mem mine hour r Hdb' Hmine' Hnd Hr.
    rewrite Hdb in Hdb'. injection Hdb' as <-.
    rewrite Hmine in Hmine'. injection Hmine' as <-.
    destruct Hm as [->|(theirs & Htheirs & ->)]; [discriminate Hr|].
    exists (filled (merged_document mem0 mine0 ed theirs)), (Dict.update theirs mine0).
    split; [reflexivity|]. split.
    + rewrite lookup_filled, lookup_merged. reflexivity.
    + rewrite lookup_update, Hr by exact Hnd. reflexivity.
Qed.

Lemma save_then_load_witness :
  let w := quiet (JObj memory_fields) stored in
  let w1 := (save_alerts_to_file "alerts.json" w).2 in
  exists w2,
    load_alerts_from_file "alerts.json" w1 = (Returns tt, w2)
    /\ complete (alerts_database w2) = true
    /\ forall mem mine hour r,
         alerts_database w = JObj mem ->
         Dict.lookup "alerts_by_time" mem = Some (JObj mine) ->
         NoDup (Dict.keys mine) ->
         Dict.lookup hour mine = Some r ->
         exists loaded slot,
           alerts_database w2 = JObj loaded
           /\ Dict.lookup "alerts_by_time" loaded = Some (JObj slot)
           /\ Dict.lookup hour slot = Some r.
Proof.
  apply (save_then_load "alerts.json" (quiet (JObj memory_fields) stored)
           (save_alerts_to_file "alerts.json" (quiet (JObj memory_fields) stored)).2).
  - vm_compute. reflexivity.
  - reflexivity.
Defined.

Lemma unread_of_boolean alerts :
  Forall (fun r => read_is_boolean r = true) alerts ->
  unread_of alerts = Returns (List.filter unread alerts).
Proof.
  induction 1 as [|r alerts Hr _ IH]; [reflexivity|].
  simpl. rewrite IH.
  destruct r as [| | | | | |d]; try discriminate Hr. simpl in *.
  destruct (Dict.lookup "read" d) as [[| [] | | | | |]|]; try discriminate Hr; reflexivity.
Qed.

(** Claim C6. For a path that holds a document (or nothing, or text that is
    not JSON) whose records are objects with a boolean [read] field or none,
    [get_unread_alerts] loads the document and returns the records of
    [alerts_by_time] whose [read] field is absent or false, leaving out those
    with [read] true, in the order of the entries of the map. *)
Theorem get_unread_alerts_filters filename ed slot w :
  existing_document (fs w !! filename) = Some ed ->
  by_time ed = Some slot ->
  Forall (fun r => read_is_boolean r = true) (Dict.values slot) ->
  get_unread_alerts filename w =
    (Returns (List.filter unread (Dict.values slot)), with_db (JObj (filled ed)) w).
Proof.
  intros Hed Hslot Hbool. unfold get_unread_alerts.
  unfold bind at 1. rewrite (load_typed _ _ _ Hed).
  unfold bind at 1. unfold get_db at 1. cbn [alerts_database with_db].
  unfold bind at 1. unfold lift at 1. cbn [py_getitem].
  rewrite (by_time_filled _ _ Hslot).
  unfold bind at 1. unfold lift at 1. cbn [py_values].
  unfold lift. rewrite (unread_of_boolean _ Hbool). reflexivity.
Qed.

Lemma get_unread_alerts_filters_witness :
  let a := JObj [("read", JBool false)] in
  let b := JObj [("read", JBool true)] in
  let w := quiet JNull
             {["alerts.json" := Text (JObj [("alerts_by_time", JObj [("A", a); ("B", b)])])]} in
  get_unread_alerts "alerts.json" w =
    (Returns [a],
     with_db (JObj (filled [("alerts_by_time", JObj [("A", a); ("B", b)])])) w).
Proof.
  apply (get_unread_alerts_filters "alerts.json"
           [("alerts_by_time",
             JObj [("A", JObj [("read", JBool false)]); ("B", JObj [("read", JBool true)])])]
           [("A", JObj [("read", JBool false)]); ("B", JObj [("read", JBool true)])]).
  - reflexivity.
  - reflexivity.
  - repeat constructor.
Defined.

(** The test is Python's truth value: a record whose [read] is not a
    boolean is returned when that value is falsy ([null] here). *)
Example get_unread_alerts_falsy_read :
  (get_unread_alerts "alerts.json"
     (quiet JNull
        {["alerts.json" :=
            Text (JObj [("alerts_by_time", JObj [("07:00", JObj [("read", JNull)])])])]})).1
  = Returns [JObj [("read", JNull)]].
Proof. reflexivity. Qed.

(** The order is the one of the map, not the one of the hours. *)
Example get_unread_alerts_insertion_order :
  (get_unread_alerts "alerts.json"
     (quiet JNull
        {["alerts.json" :=
            Text (JObj [("alerts_by_time", JObj [("09:00", stale_air); ("07:00", too_hot)])])]})).1
  = Returns [stale_air; too_hot].
Proof. reflexivity. Qed.

Section Invariant.
Implicit Types (w : world) (d ed theirs : dict) (hour filename : string).

Lemma four_fields_alert_record parameter value message :
  four_fields (alert_record parameter value message) = true.
Proof. reflexivity. Qed.

Lemma NoDup_empty_fields : NoDup (Dict.keys empty_fields).
Proof. apply (bool_decide_unpack _). vm_compute. exact I. Qed.

Lemma unreadable_or_not (f : option file) : f = Some Unreadable \/ f <> Some Unreadable.
Proof. destruct f as [[]|]; auto; right; discriminate. Qed.

(** What a well-shaped path gives a reader. *)
Lemma file_shaped_document (f : option file) :
  file_shaped f -> f <> Some Unreadable ->
  exists ed theirs,
    existing_document f = Some ed
    /\ NoDup (Dict.keys ed)
    /\ by_time ed = Some theirs
    /\ all_four_fields (Some (JObj theirs)).
Proof.
  destruct f as [[| |[| | | | | |d]]|]; simpl; try contradiction.
  - intros _ _. exists empty_fields, [].
    split; [reflexivity|]. split; [apply NoDup_empty_fields|].
    split; [reflexivity|]. split; constructor.
  - intros [Hnd Hslot] _. unfold by_time.
    destruct (Dict.lookup "alerts_by_time" d) as [[| | | | | |a]|] eqn:Ha.
    all: try (destruct Hslot as [Hslot|Hslot]; [discriminate Hslot | contradiction Hslot]).
    + exists d, a. destruct Hslot as [Hslot|Hslot]; [discriminate|].
      split; [reflexivity|]. split; [exact Hnd|]. split; [rewrite Ha; reflexivity | exact Hslot].
    + exists d, [].
      split; [reflexivity|]. split; [exact Hnd|]. split; [rewrite Ha; reflexivity|].
      split; constructor.
  - intros _ _. exists empty_fields, [].
    split; [reflexivity|]. split; [apply NoDup_empty_fields|].
    split; [reflexivity|]. split; constructor.
Qed.

Lemma memory_shaped_inv w :
  memory_shaped w ->
  exists mem mine,
    alerts_database w = JObj mem
    /\ Dict.lookup "alerts_by_time" mem = Some (JObj mine)
    /\ all_four_fields (Some (JObj mine)).
Proof.
  unfold memory_shaped.
  destruct (alerts_database w) as [| | | | | |mem]; try contradiction.
  destruct (Dict.lookup "alerts_by_time" mem) as [[| | | | | |mine]|] eqn:Hm;
    try contradiction.
  intros H. exists mem, mine. auto.
Qed.

Lemma all_four_fields_update theirs mine :
  all_four_fields (Some (JObj theirs)) ->
  Forall (fun r => four_fields r = true) (Dict.values mine) ->
  all_four_fields (Some (JObj (Dict.update theirs mine))).
Proof.
  intros [Hnd Hall] Hmine. split.
  - apply NoDup_keys_update, Hnd.
  - apply values_update_Forall; assumption.
Qed.

Lemma all_four_fields_set hour record theirs :
  all_four_fields (Some (JObj theirs)) ->
  four_fields record = true ->
  all_four_fields (Some (JObj (Dict.set hour record theirs))).
Proof.
  intros [Hnd Hall] Hr. split.
  - apply NoDup_keys_set, Hnd.
  - apply values_set_Forall; assumption.
Qed.

Lemma load_preserves filename w :
  file_shaped (fs w !! filename) ->
  memory_shaped w ->
  store_invariant filename (load_alerts_from_file filename w).2.
Proof.
  intros Hfile Hmem.
  destruct (unreadable_or_not (fs w !! filename)) as [Hu|Hu].
  - rewrite (load_unreadable _ _ Hu). split; assumption.
  - destruct (file_shaped_document _ Hfile Hu) as (ed & theirs & Hed & _ & Hth & Hsh).
    rewrite (load_typed _ _ _ Hed). split; [|exact Hfile].
    unfold memory_shaped. cbn [snd alerts_database with_db].
    rewrite (by_time_filled _ _ Hth). exact Hsh.
Qed.

Lemma save_preserves filename w :
  store_invariant filename w ->
  store_invariant filename (save_alerts_to_file filename w).2.
Proof.
  intros [Hmem Hfile].
  destruct (unreadable_or_not (fs w !! filename)) as [Hu|Hu].
  - rewrite (save_unreadable _ _ Hu). split; assumption.
  - destruct (file_shaped_document _ Hfile Hu) as (ed & theirs & Hed & Hnd & Hth & Hsh).
    destruct (memory_shaped_inv _ Hmem) as (mem & mine & Hdb & Hmine & Hshm).
    rewrite (save_typed _ _ _ _ _ _ Hdb Hmine Hed Hth). cbv zeta.
    assert (Hboth : all_four_fields (Some (JObj (Dict.update theirs mine))))
      by (apply all_four_fields_update; [exact Hsh | apply Hshm]).
    destruct (wmode w filename).
    + split.
      * unfold memory_shaped. cbn [snd alerts_database with_db].
        rewrite lookup_update by apply NoDup_merged, Hnd.
        rewrite lookup_merged. exact Hboth.
      * cbn [snd fs with_db with_file]. rewrite lookup_insert_eq.
        split; [apply NoDup_merged, Hnd|]. right.
        rewrite lookup_merged. exact Hboth.
    + split; assumption.
    + split; [exact Hmem|].
      cbn [snd fs with_line with_file]. rewrite lookup_insert_eq. exact I.
Qed.

Lemma add_unreadable hour parameter value message filename w :
  fs w !! filename = Some Unreadable ->
  add_alert_by_time hour parameter value message filename w = (Raises OSError, w).
Proof.
  intros Hu. unfold add_alert_by_time. unfold bind at 1.
  rewrite (load_unreadable _ _ Hu). reflexivity.
Qed.

Lemma queries_leave_load filename w :
  (get_alerts_by_time filename w).2 = (load_alerts_from_file filename w).2
  /\ (get_unread_alerts filename w).2 = (load_alerts_from_file filename w).2.
Proof.
  unfold get_alerts_by_time, get_unread_alerts, bind, get_db, lift.
  destruct (load_alerts_from_file filename w) as [[[]|e] w']; simpl; [|auto].
  destruct (py_getitem (alerts_database w') "alerts_by_time"); simpl; [|auto].
  destruct (py_values a); auto.
Qed.

End Invariant.

(** Claim C7, amended. The store does not check the shape of the records
    it reads, so the shape is an invariant it preserves, not one it
    establishes: if every record of the in-memory [alerts_by_time] and of
    the [alerts_by_time] of the document at the path has the four fields
    [Parameter], [Value], [Message] and [read] (under unique hours), then
    the same holds after each of load, save, add, get-by-time and
    get-unread, whether or not the file can be read or written; and when an
    add returns normally the in-memory record at its hour is the four-field
    record built from its arguments, with [read] false. *)
Theorem store_invariant_preserved (op : operation) filename w :
  store_invariant filename w ->
  store_invariant filename (run op filename w).2
  /\ forall hour parameter value message,
       op = OpAdd hour parameter value message ->
       (run op filename w).1 = Returns tt ->
       exists mem slot,
         alerts_database (run op filename w).2 = JObj mem
         /\ Dict.lookup "alerts_by_time" mem = Some (JObj slot)
         /\ Dict.lookup hour slot = Some (alert_record parameter value message)
         /\ py_getitem (alert_record parameter value message) "read"
            = Returns (JBool false).
Proof.
  intros [Hmem Hfile].
  destruct op as [| |hour parameter value message| |]; simpl.
  - split; [apply load_preserves; assumption | discriminate].
  - split; [apply save_preserves; split; assumption | discriminate].
  - destruct (unreadable_or_not (fs w !! filename)) as [Hu|Hu].
    { rewrite (add_unreadable _ _ _ _ _ _ Hu). split; [split; assumption|].
      intros ? ? ? ? _ H. discriminate H. }
    destruct (file_shaped_document _ Hfile Hu) as (ed & theirs & Hed & Hnd & Hth & Hsh).
    rewrite (add_is_save _ _ _ _ _ _ _ _ Hed Hth).
    set (record := alert_record parameter value message).
    set (w0 := with_db (JObj (added_memory hour record ed theirs)) w).
    assert (Hdb0 : alerts_database w0 = JObj (added_memory hour record ed theirs))
      by reflexivity.
    assert (Hmine0 : Dict.lookup "alerts_by_time" (added_memory hour record ed theirs)
                     = Some (JObj (Dict.set hour record theirs)))
      by apply lookup_set_eq.
    assert (Hinv0 : store_invariant filename w0).
    { split; [|exact Hfile]. unfold memory_shaped. rewrite Hdb0, Hmine0.
      apply all_four_fields_set; [exact Hsh | reflexivity]. }
    split; [apply save_preserves, Hinv0|].
    intros hour' p' v' m' [= <- <- <- <-] _.
    rewrite (save_typed filename _ _ ed theirs w0 Hdb0 Hmine0 Hed Hth). cbv zeta.
    change (wmode w0 filename) with (wmode w filename).
    destruct (wmode w filename); cbn [snd alerts_database with_db with_line with_file].
    + eexists _, _. split; [reflexivity|]. split; [apply memory_after_add, Hnd|].
      split; [apply lookup_added_slot, Hsh | reflexivity].
    + eexists _, _. split; [reflexivity|]. split; [exact Hmine0|].
      split; [apply lookup_set_eq | reflexivity].
    + eexists _, _. split; [reflexivity|]. split; [exact Hmine0|].
      split; [apply lookup_set_eq | reflexivity].
  - unfold bind. destruct (queries_leave_load filename w) as [Hq _].
    split; [|discriminate].
    destruct (get_alerts_by_time filename w) as [[a|e] w'] eqn:Hg; simpl in *;
      rewrite Hq; apply load_preserves; assumption.
  - unfold bind. destruct (queries_leave_load filename w) as [_ Hq].
    split; [|discriminate].
    destruct (get_unread_alerts filename w) as [[a|e] w'] eqn:Hg; simpl in *;
      rewrite Hq; apply load_preserves; assumption.
Qed.

Lemma store_invariant_preserved_witness :
  let op := OpAdd "09:00" (JStr "CO2") (JInt 900) (JStr "Open a window") in
  let w := quiet empty_document stored in
  store_invariant "alerts.json" (run op "alerts.json" w).2
  /\ forall hour parameter value message,
       op = OpAdd hour parameter value message ->
       (run op "alerts.json" w).1 = Returns tt ->
       exists mem slot,
         alerts_database (run op "alerts.json" w).2 = JObj mem
         /\ Dict.lookup "alerts_by_time" mem = Some (JObj slot)
         /\ Dict.lookup hour slot = Some (alert_record parameter value message)
         /\ py_getitem (alert_record parameter value message) "read"
            = Returns (JBool false).
Proof.
  apply (store_invariant_preserved
           (OpAdd "09:00" (JStr "CO2") (JInt 900) (JStr "Open a window"))
           "alerts.json" (quiet empty_document stored)).
  split.
  - simpl. split; [apply (bool_decide_unpack _); vm_compute; exact I | constructor].
  - simpl. split; [apply (bool_decide_unpack _); vm_compute; exact I|].
    right. split; [apply (bool_decide_unpack _); vm_compute; exact I|].
    repeat constructor.
Defined.

(** Claim C7 as stated fails: loading a file whose one record has only a
    [Message] field returns normally and leaves that record, without
    [Parameter], [Value] and [read], in the in-memory [alerts_by_time]. *)
Lemma load_keeps_partial_record :
  let w' := (load_alerts_from_file "alerts.json" (quiet empty_document partial_record_file)).2 in
  (load_alerts_from_file "alerts.json" (quiet empty_document partial_record_file)).1 = Returns tt
  /\ alerts_database w' =
       JObj [("alerts_by_time", JObj [("07:00", JObj [("Message", JStr "Too hot")])]);
             ("active_alerts", JList []); ("read_alerts", JList [])]
  /\ four_fields (JObj [("Message", JStr "Too hot")]) = false
  /\ ~ memory_shaped w'.
Proof.
  split; [reflexivity|]. split; [reflexivity|]. split; [reflexivity|].
  intros [_ H]. apply Forall_cons in H as [H _]. discriminate H.
Qed.




Example trend_first_match :
  get_trend_data trends "2024-01-02" =
    Returns (JObj [("Date", JStr "2024-01-02"); ("Temperature", JInt 23)])
  /\ get_trend_data trends "2024-02-30" = Returns (JObj [])
  /\ get_detailed_trend_data trends "2024-01-02" = Returns (JObj []).
Proof. repeat split. Qed.

(** * Further properties of the code *)

(** ** What an operation leaves alone *)

Section Frames.
Context (R : world -> world -> Prop).
Hypothesis R_refl : forall w, R w w.
Hypothesis R_trans : forall w1 w2 w3, R w1 w2 -> R w2 w3 -> R w1 w3.

Lemma preserves_ret {A} (a : A) : preserves R (ret a).
Proof. intros w. apply R_refl. Qed.

Lemma preserves_lift {A} (o : outcome A) : preserves R (lift o).
Proof. intros w. apply R_refl. Qed.

Lemma preserves_get_db : preserves R get_db.
Proof. intros w. apply R_refl. Qed.

Lemma preserves_json_load filename : preserves R (json_load filename).
Proof.
  intros w. unfold json_load.
  destruct (fs w !! filename) as [[]|]; apply R_refl.
Qed.

Lemma preserves_bind {A B} (m : py A) (k : A -> py B) :
  preserves R m -> (forall a, preserves R (k a)) -> preserves R (bind m k).
Proof.
  intros Hm Hk w. unfold bind. specialize (Hm w).
  destruct (m w) as [[a|e] w']; simpl in *; [|exact Hm].
  eapply R_trans; [exact Hm | apply Hk].
Qed.

Lemma preserves_try_except {A} (body : py A) caught handler :
  preserves R body -> (forall e, preserves R (handler e)) ->
  preserves R (try_except body caught handler).
Proof.
  intros Hb Hh w. unfold try_except. specialize (Hb w).
  destruct (body w) as [[a|e] w']; simpl in *; [exact Hb|].
  destruct (caught e); [|exact Hb].
  eapply R_trans; [exact Hb | apply Hh].
Qed.

Lemma preserves_merge_alerts items existing : preserves R (merge_alerts items existing).
Proof.
  intros w. destruct (merge_alerts items existing w) as [o w'] eqn:H.
  apply merge_alerts_keeps_world in H. subst w'. apply R_refl.
Qed.

Hypothesis R_set_db : forall v, preserves R (set_db v).

Lemma preserves_ensure_key key default : preserves R (ensure_key key default).
Proof.
  unfold ensure_key.
  apply preserves_bind; [apply preserves_get_db|]. intros db.
  apply preserves_bind; [apply preserves_lift|]. intros [].
  - apply preserves_ret.
  - apply preserves_bind; [apply preserves_lift | apply R_set_db].
Qed.

Lemma preserves_load filename : preserves R (load_alerts_from_file filename).
Proof.
  unfold load_alerts_from_file.
  apply preserves_try_except; [|intros _; apply R_set_db].
  apply preserves_bind; [apply preserves_json_load|]. intros data.
  apply preserves_bind; [apply R_set_db|]. intros _.
  apply preserves_bind; [apply preserves_ensure_key|]. intros _.
  apply preserves_bind; apply preserves_ensure_key || (intros _; apply preserves_ensure_key).
Qed.

Lemma preserves_get_alerts_by_time filename : preserves R (get_alerts_by_time filename).
Proof.
  unfold get_alerts_by_time.
  apply preserves_bind; [apply preserves_load|]. intros _.
  apply preserves_bind; [apply preserves_get_db|]. intros db. apply preserves_lift.
Qed.

Lemma preserves_get_unread_alerts filename : preserves R (get_unread_alerts filename).
Proof.
  unfold get_unread_alerts.
  apply preserves_bind; [apply preserves_load|]. intros _.
  apply preserves_bind; [apply preserves_get_db|]. intros db.
  apply preserves_bind; [apply preserves_lift|]. intros by_time.
  apply preserves_bind; [apply preserves_lift|]. intros alerts. apply preserves_lift.
Qed.

Hypothesis R_print : forall l, preserves R (print l).

Lemma preserves_save filename :
  (forall v, preserves R (json_dump v filename)) ->
  preserves R (save_alerts_to_file filename).
Proof.
  intros Hdump. unfold save_alerts_to_file.
  apply preserves_try_except; [|intros e; apply R_print].
  apply preserves_bind.
  { apply preserves_try_except; [apply preserves_json_load | intros _; apply preserves_ret]. }
  intros existing.
  apply preserves_bind; [apply preserves_get_db|]. intros db.
  apply preserves_bind; [apply preserves_lift|]. intros active.
  apply preserves_bind; [apply preserves_lift|]. intros existing1.
  apply preserves_bind; [apply preserves_lift|]. intros read.
  apply preserves_bind; [apply preserves_lift|]. intros existing2.
  apply preserves_bind; [apply preserves_lift|]. intros present.
  apply preserves_bind.
  { destruct present; [apply preserves_ret | apply preserves_lift]. }
  intros existing3.
  apply preserves_bind; [apply preserves_lift|]. intros by_time.
  apply preserves_bind; [apply preserves_lift|]. intros items.
  apply preserves_bind; [apply preserves_merge_alerts|]. intros existing4.
  apply preserves_bind; [apply Hdump|]. intros _.
  apply preserves_bind; [apply preserves_get_db|]. intros db0.
  apply preserves_bind; [apply preserves_lift | intros db'; apply R_set_db].
Qed.

Lemma preserves_add hour parameter value message filename :
  (forall v, preserves R (json_dump v filename)) ->
  preserves R (add_alert_by_time hour parameter value message filename).
Proof.
  intros Hdump. unfold add_alert_by_time.
  apply preserves_bind; [apply preserves_load|]. intros _.
  apply preserves_bind; [apply preserves_get_db|]. intros db.
  apply preserves_bind; [apply preserves_lift|]. intros by_time.
  apply preserves_bind; [apply preserves_lift|]. intros by_time'.
  apply preserves_bind; [apply preserves_lift|]. intros db'.
  apply preserves_bind; [apply R_set_db|]. intros _.
  apply preserves_save, Hdump.
Qed.

End Frames.

(** Loading and the two queries only read: whatever the path holds and
    whatever they return or raise, no file is created or changed and nothing
    is printed. *)
Theorem load_and_queries_read_only filename w :
  read_only w (load_alerts_from_file filename w).2
  /\ read_only w (get_alerts_by_time filename w).2
  /\ read_only w (get_unread_alerts filename w).2.
Proof.
  assert (Hrefl : forall w0, read_only w0 w0) by (intros w0; repeat split).
  assert (Htrans : forall w1 w2 w3, read_only w1 w2 -> read_only w2 w3 -> read_only w1 w3).
  { intros w1 w2 w3 (H1 & H2 & H3) (H4 & H5 & H6). repeat split; congruence. }
  assert (Hset : forall v, preserves read_only (set_db v)) by (intros v w0; repeat split).
  split; [|split].
  - apply preserves_load; assumption.
  - apply preserves_get_alerts_by_time; assumption.
  - apply preserves_get_unread_alerts; assumption.
Qed.

(** No operation of the store creates or changes a file at a path other
    than the one it is given, whatever the state of the world and whether
    the operation returns or raises. *)
Theorem operations_leave_other_paths (op : operation) filename p w :
  p <> filename ->
  fs (run op filename w).2 !! p = fs w !! p.
Proof.
  intros Hp.
  assert (Hrefl : forall w0, untouched_at p w0 w0) by reflexivity.
  assert (Htrans : forall w1 w2 w3,
             untouched_at p w1 w2 -> untouched_at p w2 w3 -> untouched_at p w1 w3).
  { unfold untouched_at. intros w1 w2 w3 H1 H2. congruence. }
  assert (Hset : forall v, preserves (untouched_at p) (set_db v)) by (intros v w0; reflexivity).
  assert (Hprint : forall l, preserves (untouched_at p) (print l)) by (intros l w0; reflexivity).
  assert (Hdump : forall v, preserves (untouched_at p) (json_dump v filename)).
  { intros v w0. unfold json_dump, untouched_at.
    destruct (wmode w0 filename); simpl; [|reflexivity|];
      apply lookup_insert_ne; congruence. }
  change (untouched_at p w (run op filename w).2).
  destruct op as [| |hour parameter value message| |]; simpl.
  - apply preserves_load; assumption.
  - apply preserves_save; assumption.
  - apply preserves_add; assumption.
  - apply preserves_bind; [assumption| |].
    + apply preserves_get_alerts_by_time; assumption.
    + intros a. apply preserves_ret; assumption.
  - apply preserves_bind; [assumption| |].
    + apply preserves_get_unread_alerts; assumption.
    + intros a. apply preserves_ret; assumption.
Qed.

Lemma operations_leave_other_paths_witness :
  fs (run (OpAdd "09:00" (JStr "CO2") (JInt 900) (JStr "Open a window")) "other.json"
        (quiet JNull stored)).2 !! "alerts.json"
  = fs (quiet JNull stored) !! "alerts.json".
Proof.
  apply (operations_leave_other_paths
           (OpAdd "09:00" (JStr "CO2") (JInt 900) (JStr "Open a window"))
           "other.json" "alerts.json" (quiet JNull stored)).
  discriminate.
Defined.

(** Saving twice in a row is saving once: after a successful save, a second
    save returns normally and leaves the file, the in-memory document and
    the output exactly as the first one left them. *)
Theorem save_idempotent filename mem mine ed theirs w :
  alerts_database w = JObj mem ->
  Dict.lookup "alerts_by_time" mem = Some (JObj mine) ->
  existing_document (fs w !! filename) = Some ed ->
  NoDup (Dict.keys ed) ->
  by_time ed = Some theirs ->
  NoDup (Dict.keys theirs) ->
  wmode w filename = Writable ->
  (save_alerts_to_file filename w).1 = Returns tt
  /\ save_alerts_to_file filename (save_alerts_to_file filename w).2 =
       (Returns tt, (save_alerts_to_file filename w).2).
Proof.
  intros Hdb Hmine Hed Hnd Hth Hndt Hw.
  rewrite (save_typed _ _ _ _ _ _ Hdb Hmine Hed Hth), Hw. cbv zeta.
  split; [reflexivity|]. cbn [snd].
  set (merged := merged_document mem mine ed theirs).
  set (both := Dict.update theirs mine).
  set (mem1 := Dict.update mem merged).
  set (w1 := with_db (JObj mem1) (with_file filename (Text (JObj merged)) w)).
  assert (Hndm : NoDup (Dict.keys merged)) by apply NoDup_merged, Hnd.
  assert (Hmem1 : forall k, Dict.lookup k mem1 =
                    match Dict.lookup k merged with
                    | Some v => Some v
                    | None => Dict.lookup k mem
                    end) by (intros k; apply lookup_update, Hndm).
  assert (Hagain : merged_document mem1 both merged both = merged).
  { unfold merged_document at 1, field_or.
    rewrite !Hmem1. unfold merged. rewrite !lookup_merged.
    cbn [String.eqb Ascii.eqb Bool.eqb].
    rewrite (set_same "active_alerts") by (rewrite lookup_merged; reflexivity).
    rewrite (set_same "read_alerts") by (rewrite lookup_merged; reflexivity).
    rewrite update_self by apply NoDup_keys_update, Hndt.
    apply set_same. rewrite lookup_merged. reflexivity. }
  rewrite (save_typed filename mem1 both merged both w1).
  - cbv zeta. change (wmode w1 filename) with (wmode w filename). rewrite Hw, Hagain.
    rewrite update_agree.
    + unfold w1, with_db, with_file. simpl. rewrite insert_insert_eq. reflexivity.
    + intros k v Hin. rewrite Hmem1, (lookup_elem_of _ _ _ Hndm Hin). reflexivity.
  - reflexivity.
  - rewrite Hmem1. unfold merged. rewrite lookup_merged. reflexivity.
  - unfold w1. cbn [fs with_db with_file]. rewrite lookup_insert_eq. reflexivity.
  - unfold by_time, merged. rewrite lookup_merged. reflexivity.
Qed.

Lemma save_idempotent_witness :
  let w := quiet (JObj memory_fields) stored in
  (save_alerts_to_file "alerts.json" w).1 = Returns tt
  /\ save_alerts_to_file "alerts.json" (save_alerts_to_file "alerts.json" w).2 =
       (Returns tt, (save_alerts_to_file "alerts.json" w).2).
Proof.
  apply (save_idempotent "alerts.json" memory_fields
           [("09:00", stale_air); ("07:00", too_dry)] stored_fields two_alerts
           (quiet (JObj memory_fields) stored)).
  - reflexivity.
  - reflexivity.
  - reflexivity.
  - apply (bool_decide_unpack _). vm_compute. exact I.
  - reflexivity.
  - apply (bool_decide_unpack _). vm_compute. exact I.
  - reflexivity.
Defined.

(** A path that exists but cannot be opened for reading (a directory, a
    file without permission): loading, both queries and adding raise the
    [OSError] to the caller and leave the world as it was, while saving
    catches it, prints the diagnostic and returns normally; none of them
    writes. *)
Theorem unreadable_path hour parameter value message filename w :
  fs w !! filename = Some Unreadable ->
  load_alerts_from_file filename w = (Raises OSError, w)
  /\ get_alerts_by_time filename w = (Raises OSError, w)
  /\ get_unread_alerts filename w = (Raises OSError, w)
  /\ add_alert_by_time hour parameter value message filename w = (Raises OSError, w)
  /\ save_alerts_to_file filename w =
       (Returns tt, with_line (ErrorSavingAlerts OSError) w).
Proof.
  intros Hu. pose proof (load_unreadable _ _ Hu) as Hl.
  split; [exact Hl|]. split; [|split; [|split]].
  - unfold get_alerts_by_time, bind. rewrite Hl. reflexivity.
  - unfold get_unread_alerts, bind. rewrite Hl. reflexivity.
  - apply add_unreadable, Hu.
  - apply save_unreadable, Hu.
Qed.

Lemma unreadable_path_witness :
  let w := quiet empty_document {["alerts.json" := Unreadable]} in
  load_alerts_from_file "alerts.json" w = (Raises OSError, w)
  /\ get_alerts_by_time "alerts.json" w = (Raises OSError, w)
  /\ get_unread_alerts "alerts.json" w = (Raises OSError, w)
  /\ add_alert_by_time "07:00" (JStr "Temperature") (JInt 30) (JStr "Too hot")
       "alerts.json" w = (Raises OSError, w)
  /\ save_alerts_to_file "alerts.json" w =
       (Returns tt, with_line (ErrorSavingAlerts OSError) w).
Proof.
  apply (unreadable_path "07:00" (JStr "Temperature") (JInt 30) (JStr "Too hot")
           "alerts.json" (quiet empty_document {["alerts.json" := Unreadable]})).
  reflexivity.
Defined.

Lemma get_alerts_by_time_typed filename ed theirs w :
  existing_document (fs w !! filename) = Some ed ->
  by_time ed = Some theirs ->
  get_alerts_by_time filename w = (Returns (JObj theirs), with_db (JObj (filled ed)) w).
Proof.
  intros Hed Hth. unfold get_alerts_by_time.
  unfold bind at 1. rewrite (load_typed _ _ _ Hed).
  unfold bind, get_db, lift. cbn [alerts_database with_db py_getitem].
  rewrite (by_time_filled _ _ Hth). reflexivity.
Qed.

(** [get_alerts_by_time] returns what is persisted, whatever the in-memory
    document was: the [alerts_by_time] map of the document at the path, and
    the empty map when the file is missing, is not JSON, or holds a document
    without that field. *)
Theorem get_alerts_by_time_persisted filename ed theirs w :
  existing_document (fs w !! filename) = Some ed ->
  by_time ed = Some theirs ->
  (forall db,
      get_alerts_by_time filename (with_db db w) =
        (Returns (JObj theirs), with_db (JObj (filled ed)) w))
  /\ (fs w !! filename = None \/ fs w !! filename = Some Garbage -> theirs = []).
Proof.
  intros Hed Hth. split.
  - intros db. apply (get_alerts_by_time_typed filename ed theirs (with_db db w) Hed Hth).
  - intros [H|H]; rewrite H in Hed; injection Hed as <-;
      injection Hth as <-; reflexivity.
Qed.

Lemma get_alerts_by_time_persisted_witness :
  let w := quiet (JObj memory_fields) stored in
  (forall db,
      get_alerts_by_time "alerts.json" (with_db db w) =
        (Returns (JObj two_alerts), with_db (JObj (filled stored_fields)) w))
  /\ (fs w !! "alerts.json" = None \/ fs w !! "alerts.json" = Some Garbage -> two_alerts = []).
Proof.
  apply (get_alerts_by_time_persisted "alerts.json" stored_fields two_alerts
           (quiet (JObj memory_fields) stored)); reflexivity.
Defined.

Lemma ensure_key_non_object key default v w :
  is_object v = false ->
  ensure_key key default (with_db v w) =
    (match py_contains key v with
     | Returns true => Returns tt
     | _ => Raises TypeError
     end, with_db v w).
Proof.
  intros Hv. unfold ensure_key, bind, get_db, lift, ret.
  cbn [alerts_database with_db].
  destruct v as [| | | | |l|d]; try discriminate Hv; cbn [py_contains py_setitem];
    try reflexivity.
  - destruct (String.index 0 key s); reflexivity.
  - destruct (existsb (str_eq key) l); reflexivity.
Qed.

(** Valid JSON that is not an object replaces the in-memory document by
    that value. The load raises [TypeError], except for an array that has
    the three field names among its elements, or a string that has them as
    substrings: then it returns normally. Either way the in-memory document
    is left without the three fields. *)
Theorem load_non_object filename v w :
  fs w !! filename = Some (Text v) ->
  is_object v = false ->
  load_alerts_from_file filename w =
    (if names_present v then Returns tt else Raises TypeError, with_db v w)
  /\ complete v = false.
Proof.
  intros Hf Hv. split; [|destruct v; try reflexivity; discriminate Hv].
  unfold load_alerts_from_file, try_except.
  unfold bind at 1. unfold json_load. rewrite Hf.
  unfold bind at 1. unfold set_db at 1.
  unfold bind at 1. rewrite (ensure_key_non_object _ _ _ _ Hv).
  unfold names_present.
  destruct (py_contains "alerts_by_time" v) as [[]|e1]; try reflexivity.
  unfold bind at 1. rewrite (ensure_key_non_object _ _ _ _ Hv).
  destruct (py_contains "active_alerts" v) as [[]|e2]; try reflexivity.
  rewrite (ensure_key_non_object _ _ _ _ Hv).
  destruct (py_contains "read_alerts" v) as [[]|e3]; reflexivity.
Qed.

Lemma load_non_object_witness :
  let names := JList [JStr "alerts_by_time"; JStr "active_alerts"; JStr "read_alerts"] in
  let w := quiet empty_document {["alerts.json" := Text names]} in
  load_alerts_from_file "alerts.json" w =
    (if names_present names then Returns tt else Raises TypeError, with_db names w)
  /\ complete names = false.
Proof.
  apply (load_non_object "alerts.json"
           (JList [JStr "alerts_by_time"; JStr "active_alerts"; JStr "read_alerts"])
           (quiet empty_document
              {["alerts.json" :=
                  Text (JList [JStr "alerts_by_time"; JStr "active_alerts";
                               JStr "read_alerts"])]})); reflexivity.
Defined.

Lemma add_closed hour parameter value message filename ed theirs w :
  existing_document (fs w !! filename) = Some ed ->
  by_time ed = Some theirs ->
  add_alert_by_time hour parameter value message filename w =
    let record := alert_record parameter value message in
    let mem1 := added_memory hour record ed theirs in
    let merged := added_document hour record ed theirs in
    match wmode w filename with
    | Writable =>
        (Returns tt,
         with_db (JObj (Dict.update mem1 merged))
           (with_file filename (Text (JObj merged)) w))
    | OpenRaises =>
        (Returns tt, with_line (ErrorSavingAlerts OSError) (with_db (JObj mem1) w))
    | DumpRaises =>
        (Returns tt,
         with_line (ErrorSavingAlerts OSError)
           (with_file filename Garbage (with_db (JObj mem1) w)))
    end.
Proof.
  intros Hed Hth.
  rewrite (add_is_save _ _ _ _ _ _ _ _ Hed Hth).
  rewrite (save_typed filename
             (added_memory hour (alert_record parameter value message) ed theirs)
             (Dict.set hour (alert_record parameter value message) theirs) ed theirs);
    [|reflexivity|apply lookup_set_eq|exact Hed|exact Hth].
  cbv zeta. cbn [wmode with_db]. destruct (wmode w filename); reflexivity.
Qed.

(** When the file cannot be opened for writing, [add_alert_by_time] still
    returns normally, with one diagnostic printed: the new alert is then in
    the in-memory document only, the files are as before, and the next
    [get_alerts_by_time], which reloads, returns the map from before the
    add. *)
Theorem add_not_persisted_when_open_fails hour parameter value message filename ed theirs w :
  existing_document (fs w !! filename) = Some ed ->
  by_time ed = Some theirs ->
  wmode w filename = OpenRaises ->
  exists w1 mem1,
    add_alert_by_time hour parameter value message filename w = (Returns tt, w1)
    /\ stdout w1 = stdout w ++ [ErrorSavingAlerts OSError]
    /\ fs w1 = fs w
    /\ alerts_database w1 = JObj mem1
    /\ Dict.lookup "alerts_by_time" mem1 =
         Some (JObj (Dict.set hour (alert_record parameter value message) theirs))
    /\ (get_alerts_by_time filename w1).1 = Returns (JObj theirs).
Proof.
  intros Hed Hth Hw.
  rewrite (add_closed _ _ _ _ _ _ _ _ Hed Hth), Hw. cbv zeta.
  eexists _, _. split; [reflexivity|]. split; [reflexivity|]. split; [reflexivity|].
  split; [reflexivity|]. split; [apply lookup_set_eq|].
  rewrite (get_alerts_by_time_typed filename ed theirs); [reflexivity|exact Hed|exact Hth].
Qed.

Lemma add_not_persisted_when_open_fails_witness :
  let w := read_only_disk JNull stored in
  exists w1 mem1,
    add_alert_by_time "09:00" (JStr "CO2") (JInt 900) (JStr "Open a window") "alerts.json" w
      = (Returns tt, w1)
    /\ stdout w1 = stdout w ++ [ErrorSavingAlerts OSError]
    /\ fs w1 = fs w
    /\ alerts_database w1 = JObj mem1
    /\ Dict.lookup "alerts_by_time" mem1 =
         Some (JObj (Dict.set "09:00"
                       (alert_record (JStr "CO2") (JInt 900) (JStr "Open a window"))
                       two_alerts))
    /\ (get_alerts_by_time "alerts.json" w1).1 = Returns (JObj two_alerts).
Proof.
  apply (add_not_persisted_when_open_fails "09:00" (JStr "CO2") (JInt 900)
           (JStr "Open a window") "alerts.json" stored_fields two_alerts
           (read_only_disk JNull stored)); reflexivity.
Defined.

(** When the dump fails after the file was opened for writing, the file is
    left truncated: [add_alert_by_time] (and [save_alerts_to_file]) return
    normally with one diagnostic, and the next [get_alerts_by_time] returns
    the empty map, so every alert that was persisted before is gone from
    disk and, after that reload, from memory. *)
Theorem add_truncates_when_dump_fails hour parameter value message filename ed theirs w :
  existing_document (fs w !! filename) = Some ed ->
  by_time ed = Some theirs ->
  wmode w filename = DumpRaises ->
  exists w1,
    add_alert_by_time hour parameter value message filename w = (Returns tt, w1)
    /\ stdout w1 = stdout w ++ [ErrorSavingAlerts OSError]
    /\ fs w1 !! filename = Some Garbage
    /\ get_alerts_by_time filename w1 = (Returns (JObj []), with_db empty_document w1).
Proof.
  intros Hed Hth Hw.
  rewrite (add_closed _ _ _ _ _ _ _ _ Hed Hth), Hw. cbv zeta.
  eexists. split; [reflexivity|]. split; [reflexivity|].
  split; [apply lookup_insert_eq|].
  apply (get_alerts_by_time_typed filename empty_fields []); [|reflexivity].
  cbn [fs with_line with_file with_db]. rewrite lookup_insert_eq. reflexivity.
Qed.

Lemma add_truncates_when_dump_fails_witness :
  let w := full_disk JNull stored in
  exists w1,
    add_alert_by_time "09:00" (JStr "CO2") (JInt 900) (JStr "Open a window") "alerts.json" w
      = (Returns tt, w1)
    /\ stdout w1 = stdout w ++ [ErrorSavingAlerts OSError]
    /\ fs w1 !! "alerts.json" = Some Garbage
    /\ get_alerts_by_time "alerts.json" w1 = (Returns (JObj []), with_db empty_document w1).
Proof.
  apply (add_truncates_when_dump_fails "09:00" (JStr "CO2") (JInt 900)
           (JStr "Open a window") "alerts.json" stored_fields two_alerts
           (full_disk JNull stored)); reflexivity.
Defined.

Lemma update_append d e :
  NoDup (Dict.keys d ++ Dict.keys e) -> Dict.update d e = d ++ e.
Proof.
  revert d. induction e as [|[k v] e IH]; intros d Hnd.
  - symmetry. apply app_nil_r.
  - rewrite update_cons.
    assert (Hk : Dict.lookup k d = None).
    { apply lookup_None_keys. apply NoDup_app in Hnd as (_ & Hdis & _).
      intros Hin. apply (Hdis k Hin). left. }
    rewrite (set_fresh _ _ _ Hk), IH.
    + rewrite <- app_assoc. reflexivity.
    + unfold Dict.keys in *. rewrite map_app, <- app_assoc. exact Hnd.
Qed.

(** Saving over a missing file, or over text that is not JSON, repairs it:
    the file then holds exactly the three fields, in the order
    [active_alerts], [read_alerts], [alerts_by_time], with the in-memory
    values (an empty list for a list the in-memory document lacks), and
    nothing else of the in-memory document. *)
Theorem save_creates_document filename mem mine w :
  alerts_database w = JObj mem ->
  Dict.lookup "alerts_by_time" mem = Some (JObj mine) ->
  NoDup (Dict.keys mine) ->
  fs w !! filename = None \/ fs w !! filename = Some Garbage ->
  wmode w filename = Writable ->
  (save_alerts_to_file filename w).1 = Returns tt
  /\ fs (save_alerts_to_file filename w).2 !! filename =
       Some (Text (JObj [("active_alerts", field_or "active_alerts" (JList []) mem);
                         ("read_alerts", field_or "read_alerts" (JList []) mem);
                         ("alerts_by_time", JObj mine)])).
Proof.
  intros Hdb Hmine Hnd Hf Hw.
  assert (Hed : existing_document (fs w !! filename) = Some empty_fields)
    by (destruct Hf as [-> | ->]; reflexivity).
  rewrite (save_typed filename mem mine empty_fields [] w Hdb Hmine Hed eq_refl), Hw.
  cbv zeta. split; [reflexivity|].
  cbn [snd fs with_db with_file]. rewrite lookup_insert_eq.
  rewrite <- (update_append [] mine) at 2 by exact Hnd. reflexivity.
Qed.

Lemma save_creates_document_witness :
  let w := quiet (JObj memory_fields) ∅ in
  (save_alerts_to_file "alerts.json" w).1 = Returns tt
  /\ fs (save_alerts_to_file "alerts.json" w).2 !! "alerts.json" =
       Some (Text (JObj [("active_alerts", field_or "active_alerts" (JList []) memory_fields);
                         ("read_alerts", field_or "read_alerts" (JList []) memory_fields);
                         ("alerts_by_time",
                          JObj [("09:00", stale_air); ("07:00", too_dry)])])).
Proof.
  apply (save_creates_document "alerts.json" memory_fields
           [("09:00", stale_air); ("07:00", too_dry)] (quiet (JObj memory_fields) ∅)).
  - reflexivity.
  - reflexivity.
  - apply (bool_decide_unpack _). vm_compute. exact I.
  - left. reflexivity.
  - reflexivity.
Defined.

Lemma unread_of_objects alerts :
  Forall (fun r => is_object r = true) alerts ->
  unread_of alerts = Returns (List.filter reported alerts).
Proof.
  induction 1 as [|r alerts Hr _ IH]; [reflexivity|].
  simpl. rewrite IH. unfold reported.
  destruct r as [| | | | | |d]; try discriminate Hr. simpl.
  destruct (py_truthy _); reflexivity.
Qed.

Lemma lookup_values k v d : Dict.lookup k d = Some v -> In v (Dict.values d).
Proof.
  induction d as [|[k0 v0] d IH]; simpl; [discriminate|].
  destruct (String.eqb k k0); [intros [= ->]; left; reflexivity | right; auto].
Qed.

Lemma get_unread_alerts_objects filename ed slot w :
  existing_document (fs w !! filename) = Some ed ->
  by_time ed = Some slot ->
  Forall (fun r => is_object r = true) (Dict.values slot) ->
  get_unread_alerts filename w =
    (Returns (List.filter reported (Dict.values slot)), with_db (JObj (filled ed)) w).
Proof.
  intros Hed Hslot Hobj. unfold get_unread_alerts.
  unfold bind at 1. rewrite (load_typed _ _ _ Hed).
  unfold bind, get_db, lift. cbn [alerts_database with_db py_getitem].
  rewrite (by_time_filled _ _ Hslot). cbn [py_values].
  rewrite (unread_of_objects _ Hobj). reflexivity.
Qed.

(** A successful add is seen by both queries: right after it,
    [get_alerts_by_time] returns a map that holds the new record at the
    hour, and, when the records already stored are objects,
    [get_unread_alerts] returns a list that contains the new record. *)
Theorem add_then_queries hour parameter value message filename ed theirs w :
  existing_document (fs w !! filename) = Some ed ->
  by_time ed = Some theirs ->
  NoDup (Dict.keys theirs) ->
  Forall (fun r => is_object r = true) (Dict.values theirs) ->
  wmode w filename = Writable ->
  exists w1 slot unread_alerts,
    add_alert_by_time hour parameter value message filename w = (Returns tt, w1)
    /\ (get_alerts_by_time filename w1).1 = Returns (JObj slot)
    /\ Dict.lookup hour slot = Some (alert_record parameter value message)
    /\ (get_unread_alerts filename w1).1 = Returns unread_alerts
    /\ In (alert_record parameter value message) unread_alerts.
Proof.
  intros Hed Hth Hnd Hobj Hw.
  set (record := alert_record parameter value message).
  set (doc := added_document hour record ed theirs).
  set (slot := Dict.update theirs (Dict.set hour record theirs)).
  set (w1 := with_db (JObj (Dict.update (added_memory hour record ed theirs) doc))
               (with_file filename (Text (JObj doc)) w)).
  assert (Hed1 : existing_document (fs w1 !! filename) = Some doc).
  { unfold w1. cbn [fs with_db with_file]. rewrite lookup_insert_eq. reflexivity. }
  assert (Hth1 : by_time doc = Some slot) by apply by_time_added.
  assert (Hl : Dict.lookup hour slot = Some record) by apply lookup_added_slot, Hnd.
  assert (Hobj1 : Forall (fun r => is_object r = true) (Dict.values slot)).
  { apply values_update_Forall; [exact Hobj|].
    apply values_set_Forall; [exact Hobj | reflexivity]. }
  exists w1, slot, (List.filter reported (Dict.values slot)).
  split; [apply (add_typed _ _ _ _ _ _ _ _ Hed Hth Hw)|].
  split; [rewrite (get_alerts_by_time_typed _ _ _ _ Hed1 Hth1); reflexivity|].
  split; [exact Hl|].
  split; [rewrite (get_unread_alerts_objects _ _ _ _ Hed1 Hth1 Hobj1); reflexivity|].
  apply filter_In. split; [apply (lookup_values _ _ _ Hl) | reflexivity].
Qed.

Lemma add_then_queries_witness :
  let w := quiet JNull stored in
  exists w1 slot unread_alerts,
    add_alert_by_time "09:00" (JStr "CO2") (JInt 900) (JStr "Open a window") "alerts.json" w
      = (Returns tt, w1)
    /\ (get_alerts_by_time "alerts.json" w1).1 = Returns (JObj slot)
    /\ Dict.lookup "09:00" slot =
         Some (alert_record (JStr "CO2") (JInt 900) (JStr "Open a window"))
    /\ (get_unread_alerts "alerts.json" w1).1 = Returns unread_alerts
    /\ In (alert_record (JStr "CO2") (JInt 900) (JStr "Open a window")) unread_alerts.
Proof.
  apply (add_then_queries "09:00" (JStr "CO2") (JInt 900) (JStr "Open a window")
           "alerts.json" stored_fields two_alerts (quiet JNull stored)).
  - reflexivity.
  - reflexivity.
  - apply (bool_decide_unpack _). vm_compute. exact I.
  - repeat constructor.
  - reflexivity.
Defined.

Lemma unread_of_rejects alerts :
  Exists (fun r => is_object r = false) alerts ->
  unread_of alerts = Raises AttributeError.
Proof.
  induction alerts as [|r alerts IH]; intros H.
  - apply Exists_nil in H. contradiction.
  - simpl. destruct r as [| | | | | |d]; try reflexivity.
    apply Exists_cons in H as [H|H]; [discriminate H|].
    simpl. rewrite (IH H). reflexivity.
Qed.

(** One stored record that is not an object (a number, a string, a list,
    [null]) makes [get_unread_alerts] raise [AttributeError], whatever the
    other records are; the in-memory document has been reloaded by then. *)
Theorem get_unread_alerts_rejects_non_object filename ed slot w :
  existing_document (fs w !! filename) = Some ed ->
  by_time ed = Some slot ->
  Exists (fun r => is_object r = false) (Dict.values slot) ->
  get_unread_alerts filename w =
    (Raises AttributeError, with_db (JObj (filled ed)) w).
Proof.
  intros Hed Hslot Hbad. unfold get_unread_alerts.
  unfold bind at 1. rewrite (load_typed _ _ _ Hed).
  unfold bind, get_db, lift. cbn [alerts_database with_db py_getitem].
  rewrite (by_time_filled _ _ Hslot). cbn [py_values].
  rewrite (unread_of_rejects _ Hbad). reflexivity.
Qed.

Lemma get_unread_alerts_rejects_non_object_witness :
  let doc := [("alerts_by_time", JObj [("07:00", too_hot); ("08:00", JStr "Too dry")])] in
  let w := quiet JNull {["alerts.json" := Text (JObj doc)]} in
  get_unread_alerts "alerts.json" w =
    (Raises AttributeError, with_db (JObj (filled doc)) w).
Proof.
  apply (get_unread_alerts_rejects_non_object "alerts.json"
           [("alerts_by_time", JObj [("07:00", too_hot); ("08:00", JStr "Too dry")])]
           [("07:00", too_hot); ("08:00", JStr "Too dry")]).
  - reflexivity.
  - reflexivity.
  - right. left. reflexivity.
Defined.

Lemma first_with_date_skips pre rest date :
  Forall (fun item => dated item = true /\ has_date date item = false) pre ->
  first_with_date (pre ++ rest) date = first_with_date rest date.
Proof.
  induction 1 as [|item pre [Hd Hn] _ IH]; [reflexivity|].
  simpl. destruct item as [| | | | | |d]; try discriminate Hd.
  simpl in *. unfold Dict.mem in Hd.
  destruct (Dict.lookup "Date" d) as [v|]; [|discriminate Hd].
  rewrite Hn. exact IH.
Qed.

(** The trend lookup stops at the first entry whose [Date] is the date
    asked for: it returns that entry whatever comes after it in the
    sequence, malformed entries included. *)
Theorem get_trend_data_stops_at_first_match (db : fake_database) pre item rest date :
  tendance_moyenne db = pre ++ item :: rest ->
  Forall (fun item => dated item = true /\ has_date date item = false) pre ->
  has_date date item = true ->
  get_trend_data db date = Returns item.
Proof.
  intros Hdb Hpre Hitem. unfold get_trend_data.
  rewrite Hdb, (first_with_date_skips _ _ _ Hpre). simpl.
  destruct item as [| | | | | |d]; try discriminate Hitem. simpl in *.
  destruct (Dict.lookup "Date" d) as [v|]; [|discriminate Hitem].
  rewrite Hitem. reflexivity.
Qed.

Lemma get_trend_data_stops_at_first_match_witness :
  get_trend_data ragged_trends "2024-01-02" =
    Returns (JObj [("Date", JStr "2024-01-02"); ("Temperature", JInt 23)]).
Proof.
  apply (get_trend_data_stops_at_first_match ragged_trends
           [JObj [("Date", JStr "2024-01-01"); ("Temperature", JInt 21)]]
           (JObj [("Date", JStr "2024-01-02"); ("Temperature", JInt 23)])
           [JObj [("Temperature", JInt 25)]] "2024-01-02").
  - reflexivity.
  - repeat constructor.
  - reflexivity.
Defined.

(** An entry without a [Date] field that is reached before any match makes
    the trend lookup raise instead of returning the empty mapping:
    [KeyError] when the entry is an object, [TypeError] otherwise. A date
    that is not in the sequence reaches every entry. *)
Theorem get_trend_data_malformed_entry (db : fake_database) pre bad rest date :
  tendance_moyenne db = pre ++ bad :: rest ->
  Forall (fun item => dated item = true /\ has_date date item = false) pre ->
  dated bad = false ->
  get_trend_data db date = Raises (if is_object bad then KeyError else TypeError).
Proof.
  intros Hdb Hpre Hbad. unfold get_trend_data.
  rewrite Hdb, (first_with_date_skips _ _ _ Hpre). simpl.
  destruct bad as [| | | | | |d]; try reflexivity. simpl in *.
  unfold Dict.mem in Hbad.
  destruct (Dict.lookup "Date" d); [discriminate Hbad | reflexivity].
Qed.

Lemma get_trend_data_malformed_entry_witness :
  get_trend_data ragged_trends "2024-02-30" =
    Raises (if is_object (JObj [("Temperature", JInt 25)]) then KeyError else TypeError).
Proof.
  apply (get_trend_data_malformed_entry ragged_trends
           [JObj [("Date", JStr "2024-01-01"); ("Temperature", JInt 21)];
            JObj [("Date", JStr "2024-01-02"); ("Temperature", JInt 23)]]
           (JObj [("Temperature", JInt 25)]) [] "2024-02-30").
  - reflexivity.
  - repeat constructor.
  - reflexivity.
Defined.

Lemma filled_complete d : complete (JObj d) = true -> filled d = d.
Proof.
  unfold complete, filled, setdefault.
  intros H. apply andb_prop in H as [H Hb]. apply andb_prop in H as [Ha Hr].
  rewrite Hb, Ha, Hr. reflexivity.
Qed.

(** Loading a complete document and saving it straight away changes
    nothing: the file holds the same document, key for key and in the same
    order, and the in-memory document is that document. *)
Theorem load_then_save_round_trip filename ed theirs w :
  fs w !! filename = Some (Text (JObj ed)) ->
  NoDup (Dict.keys ed) ->
  complete (JObj ed) = true ->
  Dict.lookup "alerts_by_time" ed = Some (JObj theirs) ->
  NoDup (Dict.keys theirs) ->
  wmode w filename = Writable ->
  exists w',
    (load_alerts_from_file filename ;; save_alerts_to_file filename) w = (Returns tt, w')
    /\ fs w' !! filename = Some (Text (JObj ed))
    /\ alerts_database w' = JObj ed
    /\ stdout w' = stdout w.
Proof.
  intros Hf Hnd Hc Hslot Hndt Hw.
  assert (Hed : existing_document (fs w !! filename) = Some ed) by (rewrite Hf; reflexivity).
  assert (Hth : by_time ed = Some theirs) by (unfold by_time; rewrite Hslot; reflexivity).
  unfold bind. rewrite (load_typed _ _ _ Hed), (filled_complete _ Hc).
  rewrite (save_typed filename ed theirs ed theirs (with_db (JObj ed) w) eq_refl Hslot Hed Hth).
  cbv zeta. cbn [wmode with_db]. rewrite Hw.
  assert (Hsame : merged_document ed theirs ed theirs = ed).
  { unfold merged_document, field_or.
    unfold complete, Dict.mem in Hc.
    destruct (Dict.lookup "active_alerts" ed) as [a|] eqn:Ha; [|discriminate Hc].
    destruct (Dict.lookup "read_alerts" ed) as [r|] eqn:Hr; [|discriminate Hc].
    rewrite (set_same "active_alerts" a ed Ha), (set_same "read_alerts" r ed Hr).
    rewrite update_self by exact Hndt. apply set_same, Hslot. }
  rewrite Hsame, update_self by exact Hnd.
  eexists. split; [reflexivity|]. split; [apply lookup_insert_eq|]. split; reflexivity.
Qed.

Lemma load_then_save_round_trip_witness :
  let doc := [("active_alerts", JList []); ("read_alerts", JList [JStr "08:00"]);
              ("alerts_by_time", JObj two_alerts); ("schema", JInt 1)] in
  let w := quiet JNull {["alerts.json" := Text (JObj doc)]} in
  exists w',
    (load_alerts_from_file "alerts.json" ;; save_alerts_to_file "alerts.json") w
      = (Returns tt, w')
    /\ fs w' !! "alerts.json" = Some (Text (JObj doc))
    /\ alerts_database w' = JObj doc
    /\ stdout w' = stdout w.
Proof.
  apply (load_then_save_round_trip "alerts.json"
           [("active_alerts", JList []); ("read_alerts", JList [JStr "08:00"]);
            ("alerts_by_time", JObj two_alerts); ("schema", JInt 1)] two_alerts).
  - reflexivity.
  - apply (bool_decide_unpack _). vm_compute. exact I.
  - reflexivity.
  - reflexivity.
  - apply (bool_decide_unpack _). vm_compute. exact I.
  - reflexivity.
Defined.
